(** * Seabone bot (scripts/telegram-bot.py): transcript store, scheduler
      and agent loop.

    A shallow embedding of the parts of [telegram-bot.py] that carry the
    persistent session ([Session]), the cron scheduler ([_cron_matches],
    [_cron_loop]) and the tool-calling loop ([_compact_session],
    [agent_respond]), together with the properties checked on them.

    Conventions.
    - A Python [str] is a [string]; one [ascii] stands for one character.
    - A Python [dict] with string keys is a [gmap string _]; dict equality
      in Python ignores insertion order, and so does [gmap] equality.
    - A Python [int] is a [Z]; [len] and indices are [nat].
    - A function that can raise returns a [result]. *)

From stdpp Require Import gmap strings list fin_maps pretty.
From Stdlib Require Import Ascii ZArith Lia.

#[local] Open Scope string_scope.
#[local] Open Scope Z_scope.
#[local] Open Scope list_scope.

(* ===================================================================== *)
(** * Python values and the few built-ins the bot relies on *)
(* ===================================================================== *)

Module Py.

(** What [json.loads] can return.  Numbers are kept integral. *)
#[warnings="-register-all"] Inductive jvalue : Type :=
| JNull
| JBool (b : bool)
| JNum (n : Z)
| JStr (s : string)
| JArr (l : list jvalue)
| JObj (o : gmap string jvalue).

Abbreviation dict := (gmap string jvalue).

(** An exception: its class and what [str(exc)] gives. *)
Record exn : Type := Exn { exn_type : string; exn_str : string }.

Inductive result (A : Type) : Type :=
| Ok (a : A)
| Raise (e : exn).
Arguments Ok {A} a.
Arguments Raise {A} e.

Definition bind {A B} (r : result A) (k : A → result B) : result B :=
  match r with
  | Ok a => k a
  | Raise e => Raise e
  end.

(** [bool(v)]: the truth value Python gives a JSON value. *)
Definition truthy (v : jvalue) : bool :=
  match v with
  | JNull => false
  | JBool b => b
  | JNum n => negb (n =? 0)
  | JStr s => negb (String.eqb s "")
  | JArr l => negb (Nat.eqb (length l) 0)
  | JObj o => negb (Nat.eqb (size o) 0)
  end.

(** [bool(d.get(k))]: a missing key gives [None], which is false. *)
Definition get_truthy (d : dict) (k : string) : bool :=
  from_option truthy false (d !! k).

(** [type(v).__name__] *)
Definition type_name (v : jvalue) : string :=
  match v with
  | JNull => "NoneType"
  | JBool _ => "bool"
  | JNum _ => "int"
  | JStr _ => "str"
  | JArr _ => "list"
  | JObj _ => "dict"
  end.

(** [len(v)]; [None] stands for the [TypeError] Python raises on
    [None], booleans and numbers. *)
Definition py_len (v : jvalue) : option nat :=
  match v with
  | JStr s => Some (String.length s)
  | JArr l => Some (length l)
  | JObj o => Some (size o)
  | JNull | JBool _ | JNum _ => None
  end.

Definition no_len (v : jvalue) : exn :=
  Exn "TypeError" ("object of type '" +:+ type_name v +:+ "' has no len()").

(** [v == s] for a string literal [s]. *)
Definition eq_str (v : option jvalue) (s : string) : bool :=
  match v with
  | Some (JStr s') => String.eqb s' s
  | _ => false
  end.

(** [l[start:]] for an integer [start]: a negative start counts from the
    end, and both ends are clamped to the list. *)
Definition slice_from {A} (start : Z) (l : list A) : list A :=
  let n := Z.of_nat (length l) in
  let i := if start <? 0 then Z.max 0 (start + n) else Z.min start n in
  drop (Z.to_nat i) l.

(** [s.startswith(p)]. *)
Fixpoint startswith (p s : string) : bool :=
  match p, s with
  | EmptyString, _ => true
  | String a p', String b s' => Ascii.eqb a b && startswith p' s'
  | String _ _, EmptyString => false
  end.

(** [s[:n]] and [s[n:]] for a non-negative [n]. *)
Fixpoint str_take (n : nat) (s : string) : string :=
  match n, s with
  | O, _ => ""
  | S n', String a s' => String a (str_take n' s')
  | S _, EmptyString => ""
  end.

Fixpoint str_drop (n : nat) (s : string) : string :=
  match n, s with
  | O, _ => s
  | S n', String _ s' => str_drop n' s'
  | S _, EmptyString => ""
  end.

(** [needle in s]. *)
Fixpoint contains (needle s : string) : bool :=
  startswith needle s ||
  match s with
  | EmptyString => false
  | String _ s' => contains needle s'
  end.

End Py.

Import Py.

(* ===================================================================== *)
(** * Configuration (section 5 of the script) *)
(* ===================================================================== *)

Module Config.

(** One element of [cron_jobs].  The loop reads each field with
    [job.get(field, default)]; a record field holds the value after the
    default has been applied. *)
Record cron_job : Type := CronJob {
  job_id : string;
  job_schedule : string;
  job_action : string;
  job_enabled : bool;
}.

(** The two sections of [CFG] read by the embedded code.  [context] is
    kept as a dictionary: the code reads it with
    [ctx_cfg.get(key, default)]. *)
Record config : Type := Cfg {
  context : gmap string Z;
  cron_jobs : list cron_job;
}.

Definition DEFAULT_CONFIG : config :=
  {| context :=
       {[ "max_messages" := 100;
          "keep_recent" := 30;
          "prune_tool_results_after" := 15 ]};
     cron_jobs :=
       [ CronJob "morning-status" "0 8 * * *" "Morning status report." true;
         CronJob "stale-check" "*/30 * * * *" "Check for stale agents." true;
         CronJob "maintenance" "0 3 * * *" "__maintenance__" true ] |}.

(** [ctx_cfg.get(key, default)] *)
Definition ctx_get (ctx : gmap string Z) (key : string) (dflt : Z) : Z :=
  default dflt (ctx !! key).

End Config.

Import Config.

(* ===================================================================== *)
(** * class Session: the JSONL transcript *)
(* ===================================================================== *)

Module Session.

(** The transcript file, read line by line.  [append] writes one JSON
    object per line, so a stored line either is blank or fails to parse
    ([Unparsable]: [load_context] skips it) or parses to an object
    ([Parsed]).  A file that does not exist reads as [[]]:
    [load_context] returns [[]] and [message_count] returns [0] for
    both. *)
Inductive line : Type :=
| Unparsable (raw : string)
| Parsed (entry : dict).

Definition PLACEHOLDER : jvalue := JStr "[truncated]".

(** [entry = {**entry, "_ts": now}; fh.write(json.dumps(entry) + "\n")] *)
Definition append (now : string) (entry : dict) (file : list line)
  : list line :=
  file ++ [Parsed (<["_ts" := JStr now]> entry)].

(** [self.append({"_compact_marker": True})] *)
Definition clear (now : string) (file : list line) : list line :=
  append now {[ "_compact_marker" := JBool true ]} file.

(** The reading loop of [load_context]: the state is
    [(entries, start_idx)]. *)
Definition scan_step (st : list dict * nat) (ln : line) : list dict * nat :=
  match ln with
  | Unparsable _ => st
  | Parsed entry =>
      let entries := st.1 ++ [entry] in
      (entries,
       if get_truthy entry "_compact_marker" then length entries else st.2)
  end.

Definition scan (file : list line) : list dict * nat :=
  fold_left scan_step file ([], 0%nat).

(** [if start_idx > 0: entries = entries[start_idx:]] *)
Definition after_marker (file : list line) : list dict :=
  let '(entries, start_idx) := scan file in
  if (0 <? start_idx)%nat then drop start_idx entries else entries.

(** [{k: v for k, v in entry.items() if not k.startswith("_")}] *)
Definition strip_internal (entry : dict) : dict :=
  filter (λ kv, startswith "_" kv.1 = false) entry.

(** The conversion loop: strip, keep what has a ["role"]. *)
Definition to_messages (entries : list dict) : list dict :=
  filter (λ msg, is_Some (msg !! "role")) (strip_internal <$> entries).

(** [if len(messages) > max_msgs: messages = messages[-max_msgs:]] *)
Definition trim_to_max (max_msgs : Z) (messages : list dict) : list dict :=
  if max_msgs <? Z.of_nat (length messages)
  then slice_from (- max_msgs) messages
  else messages.

(** The body of the pruning loop at index [i]. *)
Definition prune_at (messages : list dict) (i : nat) : result (list dict) :=
  match messages !! i with
  | None => Ok messages
  | Some m =>
      if eq_str (m !! "role") "tool" then
        let content := default (JStr "") (m !! "content") in
        match py_len content with
        | None => Raise (no_len content)
        | Some n =>
            if (100 <? n)%nat
            then Ok (<[i := <["content" := PLACEHOLDER]> m]> messages)
            else Ok messages
        end
      else Ok messages
  end.

Fixpoint prune_loop (idxs : list nat) (messages : list dict)
  : result (list dict) :=
  match idxs with
  | [] => Ok messages
  | i :: rest => bind (prune_at messages i) (prune_loop rest)
  end.

(** [if prune_after > 0 and len(messages) > prune_after: ...] *)
Definition prune_old (prune_after : Z) (messages : list dict)
  : result (list dict) :=
  let n := Z.of_nat (length messages) in
  if (0 <? prune_after) && (prune_after <? n) then
    let cutoff := Z.to_nat (n - prune_after) in
    prune_loop (seq 0 cutoff) messages
  else Ok messages.

(** The messages [load_context] holds after "Trim to max", before
    "Prune old tool results". *)
Definition trimmed (ctx : gmap string Z) (file : list line) : list dict :=
  trim_to_max (ctx_get ctx "max_messages" 100)
              (to_messages (after_marker file)).

Definition load_context (cfg : config) (file : list line)
  : result (list dict) :=
  let ctx_cfg := context cfg in
  let prune_after := ctx_get ctx_cfg "prune_tool_results_after" 15 in
  prune_old prune_after (trimmed ctx_cfg file).

(** [message_count]: the state of the loop is [count]. *)
Definition count_step (count : nat) (ln : line) : nat :=
  match ln with
  | Unparsable _ => count
  | Parsed entry =>
      if get_truthy entry "_compact_marker" then 0%nat
      else if bool_decide (is_Some (entry !! "role")) then S count
      else count
  end.

Definition message_count (file : list line) : nat :=
  fold_left count_step file 0%nat.

End Session.

(* ===================================================================== *)
(** * Python string methods used by the session key and the cron parser *)
(* ===================================================================== *)

Module Str.

(** [s.split(sep)] for a one-character separator: always at least one
    piece, empty pieces are kept. *)
Fixpoint split_on (sep : ascii) (s : string) : list string :=
  match s with
  | EmptyString => [""]
  | String c s' =>
      if Ascii.eqb c sep then "" :: split_on sep s'
      else match split_on sep s' with
           | w :: ws => String c w :: ws
           | [] => [String c ""]
           end
  end.

(** [s.split(sep, 1)] when [sep in s]: the text before and after the
    first separator. *)
Fixpoint split_once (sep : ascii) (s : string) : string * string :=
  match s with
  | EmptyString => ("", "")
  | String c s' =>
      if Ascii.eqb c sep then ("", s')
      else let '(lo, hi) := split_once sep s' in (String c lo, hi)
  end.

(** [c.isspace()] on the ASCII range: tab, LF, VT, FF, CR, the four
    separators FS GS RS US, and the space. *)
Definition is_space (c : ascii) : bool :=
  let n := Ascii.N_of_ascii c in
  ((9 <=? n) && (n <=? 13) || (28 <=? n) && (n <=? 32))%N.

Fixpoint lstrip (s : string) : string :=
  match s with
  | EmptyString => ""
  | String c s' => if is_space c then lstrip s' else s
  end.

Definition rstrip (s : string) : string :=
  String.rev (lstrip (String.rev s)).

(** [s.strip()] *)
Definition strip (s : string) : string := rstrip (lstrip s).

(** [s.split()]: pieces between runs of white space, none empty.  [cur]
    is the piece being read, reversed. *)
Fixpoint split_ws_go (cur : string) (s : string) : list string :=
  match s with
  | EmptyString =>
      if String.eqb cur "" then [] else [String.rev cur]
  | String c s' =>
      if is_space c
      then (if String.eqb cur "" then [] else [String.rev cur])
             ++ split_ws_go "" s'
      else split_ws_go (String c cur) s'
  end.

Definition split_ws (s : string) : list string := split_ws_go "" s.

Definition digit_val (c : ascii) : option Z :=
  let n := Ascii.N_of_ascii c in
  if ((48 <=? n) && (n <=? 57))%N then Some (Z.of_N n - 48) else None.

(** The digits of an [int] literal: single underscores are allowed
    between digits. [after_digit] says whether the previous character was
    a digit. *)
Fixpoint parse_digits (acc : Z) (after_digit : bool) (s : string)
  : option Z :=
  match s with
  | EmptyString => if after_digit then Some acc else None
  | String c s' =>
      if Ascii.eqb c "_" then
        if after_digit then parse_digits acc false s' else None
      else
        match digit_val c with
        | Some d => parse_digits (10 * acc + d) true s'
        | None => None
        end
  end.

(** [int(s)]; [None] stands for [ValueError]. *)
Definition py_int (s : string) : option Z :=
  match strip s with
  | String "-" r => Z.opp <$> parse_digits 0 false r
  | String "+" r => parse_digits 0 false r
  | r => parse_digits 0 false r
  end.

(** [s.zfill(width)] for a string of digits. *)
Definition zfill (width : nat) (s : string) : string :=
  String.concat "" (replicate (width - String.length s) "0") +:+ s.

Fixpoint str_map (f : ascii → ascii) (s : string) : string :=
  match s with
  | EmptyString => ""
  | String c s' => String (f c) (str_map f s')
  end.

End Str.

Import Str.

(* ===================================================================== *)
(** * Session.__init__: where a session key is stored *)
(* ===================================================================== *)

Module SessionPath.

(** Membership in the character class [a-zA-Z0-9_-]. *)
Definition in_class (c : ascii) : bool :=
  let n := Ascii.N_of_ascii c in
  ((97 <=? n) && (n <=? 122) || (65 <=? n) && (n <=? 90)
   || (48 <=? n) && (n <=? 57) || (n =? 95) || (n =? 45))%N.

(** [re.sub(r"[^a-zA-Z0-9_-]", "_", session_key)]: the pattern matches
    one character at a time, so the substitution is a map. *)
Definition safe (session_key : string) : string :=
  str_map (λ c, if in_class c then c else "_"%char) session_key.

(** An absolute [pathlib.Path], as the list of its components below the
    root. *)
Definition path := list string.

(** [base / segment] of pathlib: the segment is cut at ["/"], empty and
    ["."] components are dropped, [".."] is kept; a segment that starts
    with ["/"] replaces the base. *)
Definition path_div (base : path) (segment : string) : path :=
  let parts :=
    filter (λ p, p ≠ "" ∧ p ≠ ".") (split_on "/" segment) in
  if startswith "/" segment then parts else base ++ parts.

Section Init.
(** [SESSIONS_DIR = SEABONE_DIR / "sessions"], fixed by where the
    script is installed. *)
Variable SESSIONS_DIR : path.

Definition session_file (session_key : string) : path :=
  path_div SESSIONS_DIR (safe session_key +:+ ".jsonl").

Definition lock_file (session_key : string) : path :=
  path_div SESSIONS_DIR (safe session_key +:+ ".lock").
End Init.

End SessionPath.

(* ===================================================================== *)
(** * Cron scheduler *)
(* ===================================================================== *)

Module Cron.

(** The fields of [datetime] the scheduler reads.  [weekday] is what
    [dt.weekday()] returns: Monday is 0, Sunday is 6. *)
Record datetime : Type := DateTime {
  year : Z; month : Z; day : Z;
  hour : Z; minute : Z; second : Z;
  weekday : Z;
}.

Definition valid_datetime (dt : datetime) : Prop :=
  1 ≤ year dt ≤ 9999 ∧ 1 ≤ month dt ≤ 12 ∧ 1 ≤ day dt ≤ 31 ∧
  0 ≤ hour dt ≤ 23 ∧ 0 ≤ minute dt ≤ 59 ∧ 0 ≤ second dt ≤ 59 ∧
  0 ≤ weekday dt ≤ 6.

(** The body of the loop of [_cron_field_matches] for one [part],
    already stripped: [true] where the code returns [True], [false]
    where it goes on to the next part. *)
Definition part_matches (part : string) (value max_val : Z) : bool :=
  if String.eqb part "*" then true
  else if startswith "*/" part then
    match py_int (str_drop 2 part) with
    | Some step => (0 <? step) && (value mod step =? 0)
    | None => false
    end
  else if contains "-" part then
    let '(lo, hi) := split_once "-" part in
    match py_int lo, py_int hi with
    | Some lo_i, Some hi_i =>
        let lo_i := if (max_val =? 7) && (lo_i =? 7) then 0 else lo_i in
        let hi_i := if (max_val =? 7) && (hi_i =? 7) then 0 else hi_i in
        (lo_i <=? hi_i) && (lo_i <=? value) && (value <=? hi_i)
        || (hi_i <? lo_i) && ((lo_i <=? value) || (value <=? hi_i))
    | _, _ => false
    end
  else
    match py_int part with
    | Some part_i =>
        let part_i :=
          if (max_val =? 7) && (part_i =? 7) then 0 else part_i in
        part_i =? value
    | None => false
    end.

Definition _cron_field_matches (field : string) (value max_val : Z)
  : bool :=
  existsb (λ part, part_matches (strip part) value max_val)
          (split_on "," field).

Definition _cron_matches (expression : string) (dt : datetime) : bool :=
  match split_ws (strip expression) with
  | [minute_f; hour_f; dom; month_f; dow] =>
      let py_dow := (weekday dt + 1) mod 7 in
      forallb (λ '(field, value, max_val),
                 _cron_field_matches field value max_val)
              [ (minute_f, minute dt, 59);
                (hour_f, hour dt, 23);
                (dom, day dt, 31);
                (month_f, month dt, 12);
                (dow, py_dow, 7) ]
  | _ => false
  end.

(** [now.strftime("%Y-%m-%d %H:%M")] *)
Definition minute_key (now : datetime) : string :=
  zfill 4 (pretty (year now)) +:+ "-" +:+ zfill 2 (pretty (month now))
  +:+ "-" +:+ zfill 2 (pretty (day now)) +:+ " "
  +:+ zfill 2 (pretty (hour now)) +:+ ":" +:+ zfill 2 (pretty (minute now)).

Section Loop.
(** What the rest of the process looks like to the scheduler. *)
Variable W : Type.
(** [try: _run_maintenance() except Exception: log.exception(...)] *)
Variable run_maintenance : W → W.
(** [try: session = Session(f"cron_{job_id}"); session.append(...);
    agent_respond(session, action, source="cron")
    except Exception: log.exception(...)], given [job_id] and
    [action]. *)
Variable run_agent : string → string → W → W.

(** State of [_cron_loop]: the local [last_run], the lines written by
    [log.info("Cron firing: %s (%s)", job_id, schedule)] with the
    minute they were written in, and the rest of the process. *)
Record state : Type := State {
  last_run : gmap string string;
  firings : list (string * string);
  world : W;
}.

(** The body of [for job in CFG.get("cron_jobs", [])]. *)
Definition job_step (now : datetime) (st : state) (job : cron_job)
  : state :=
  let key := minute_key now in
  if negb (job_enabled job) then st
  else if String.eqb (job_id job) "" || String.eqb (job_schedule job) ""
          || String.eqb (job_action job) "" then st
  else if bool_decide (last_run st !! job_id job = Some key) then st
  else if negb (_cron_matches (job_schedule job) now) then st
  else
    {| last_run := <[job_id job := key]> (last_run st);
       firings := firings st ++ [(job_id job, key)];
       world :=
         if String.eqb (job_action job) "__maintenance__"
         then run_maintenance (world st)
         else run_agent (job_id job) (job_action job) (world st) |}.

(** One turn of [while _running], entered at time [now]. *)
Definition tick (cfg : config) (st : state) (now : datetime) : state :=
  fold_left (job_step now) (cron_jobs cfg) st.

(** The turns of [while _running] from a given state, one per clock
    reading. *)
Definition turns (cfg : config) (clock : list datetime) (st : state)
  : state :=
  fold_left (tick cfg) clock st.

(** [_cron_loop]: [last_run] starts empty. *)
Definition _cron_loop (cfg : config) (clock : list datetime) (w : W)
  : state :=
  turns cfg clock {| last_run := ∅; firings := []; world := w |}.
End Loop.

Arguments State {W} _ _ _.
Arguments last_run {W} _.
Arguments firings {W} _.
Arguments world {W} _.
Arguments job_step {W} _ _ _ _ _.
Arguments tick {W} _ _ _ _ _.
Arguments turns {W} _ _ _ _ _.
Arguments _cron_loop {W} _ _ _ _ _.

End Cron.

(* ===================================================================== *)
(** * The agent loop: [_compact_session] and [agent_respond] *)
(* ===================================================================== *)

Module Agent.

(** One element of [msg["tool_calls"]]:
    [{"id": .., "function": {"name": .., "arguments": ..}}]. *)
Record tool_call : Type := ToolCall {
  tc_id : string;
  tc_name : string;
  tc_arguments : string;
}.

(** [response["choices"][0]["message"]].  [msg_content = None] is a JSON
    [null]; an absent or empty ["tool_calls"] is [[]]. *)
Record ds_message : Type := DsMessage {
  msg_content : option string;
  msg_tool_calls : list tool_call;
}.

(** Which of the two call sites of [_ds_request] made a request. *)
Inductive origin : Type := FromCompaction | FromLoop.

(** Which kind of executor the loop ran. *)
Inductive executor_kind : Type := Local | Provider.

(** The memory files, by file name: the entries appended so far. *)
Abbreviation memfs := (gmap string (list string)).

Definition TOOL_NAMES : list string :=
  [ "spawn_agent"; "swarm_status"; "read_logs"; "kill_task"; "view_queue";
    "active_tasks"; "completed_tasks"; "shell_command"; "write_memory";
    "read_memory"; "list_prs"; "view_pr"; "merge_pr" ].

Definition WEBHOOK_ALLOWED_TOOL_NAMES : gset string :=
  {[ "spawn_agent"; "swarm_status"; "read_logs"; "view_queue";
     "active_tasks"; "completed_tasks"; "write_memory"; "read_memory";
     "list_prs"; "view_pr" ]}.

#[warnings="-abstract-large-number"] Definition MAX_MEMORY_CONTENT : nat := 10000.

Definition NL : string := String "010" "".

Definition tool_call_json (tc : tool_call) : jvalue :=
  JObj {[ "id" := JStr (tc_id tc);
          "function" :=
            JObj {[ "name" := JStr (tc_name tc);
                    "arguments" := JStr (tc_arguments tc) ]} ]}.

(** [args[k]] *)
Definition getitem (args : jvalue) (k : string) : result jvalue :=
  match args with
  | JObj o =>
      match o !! k with
      | Some v => Ok v
      | None => Raise (Exn "KeyError" ("'" +:+ k +:+ "'"))
      end
  | _ => Raise (Exn "TypeError" ("'" +:+ type_name args +:+
                                 "' object is not subscriptable"))
  end.

(** [args.get(k, dflt)] *)
Definition get_or (args : jvalue) (k : string) (dflt : jvalue)
  : result jvalue :=
  match args with
  | JObj o => Ok (default dflt (o !! k))
  | _ => Raise (Exn "AttributeError"
                    ("'" +:+ type_name args +:+
                     "' object has no attribute 'get'"))
  end.

Fixpoint take_while (p : ascii → bool) (s : string) : string :=
  match s with
  | EmptyString => ""
  | String c s' => if p c then String c (take_while p s') else ""
  end.

(** Membership in the character class [a-zA-Z0-9._-]. *)
Definition id_char (c : ascii) : bool :=
  SessionPath.in_class c || Ascii.eqb c ".".

(** [re.search(r"task_id=([a-zA-Z0-9._-]+)", s)], giving [m.group(1)]. *)
Fixpoint search_task_id (s : string) : option string :=
  let here :=
    if startswith "task_id=" s
    then take_while id_char (str_drop 8 s) else "" in
  if negb (String.eqb here "") then Some here
  else match s with
       | EmptyString => None
       | String _ s' => search_task_id s'
       end.

(** What the loop takes from its surroundings.  [E] is the state of the
    host that tool executors act on, apart from the memory files. *)
Class Host (E : Type) : Type := {
  CFG : config;
  (** [datetime.now(timezone.utc).isoformat()] and [.strftime(fmt)] at
      the [n]-th reading of the clock. *)
  utc_isoformat : nat → string;
  utc_strftime : string → nat → string;
  (** [json.loads]; [None] is [JSONDecodeError]. *)
  json_loads : string → option jvalue;
  (** The reasoning service: what the [n]-th call of [_ds_request]
      gives for these messages and tool names, a message or an
      exception. *)
  ds_service : nat → list dict → list string → result ds_message;
  (** [open(path, "a")] on a memory file: [Some msg] when it raises. *)
  open_error : string → memfs → option string;
  (** The tool functions other than [tool_write_memory]. *)
  tool_impl : string → jvalue → memfs → E → result string * E;
  (** [mcp_manager]: names of the registered servers, names of the
      tools it offers, [call_tool]. *)
  mcp_servers : E → list string;
  mcp_tool_names : E → list string;
  mcp_call_tool : string → jvalue → E → result string * E;
  _build_system_prompt : nat → memfs → E → string;
}.

Section Runtime.
Context `{Host E}.

Record world : Type := World {
  file : list Session.line;         (* the JSONL file of the session *)
  clock : nat;                      (* clock readings so far *)
  mem : memfs;
  env : E;
  sent : list (string * option string);   (* send_message(text, markup) *)
  ds_log : list (origin * result ds_message); (* calls of _ds_request *)
  exec_log : list (executor_kind * string);   (* executors run by the loop *)
}.

(** Computations on the world that may raise; what was done before the
    exception stays done. *)
Definition M (A : Type) : Type := world → result A * world.

Definition ret {A} (a : A) : M A := λ w, (Ok a, w).
Definition raise {A} (e : exn) : M A := λ w, (Raise e, w).
Definition lift {A} (r : result A) : M A := λ w, (r, w).
Definition mbind {A B} (m : M A) (k : A → M B) : M B :=
  λ w, match m w with
       | (Ok a, w') => k a w'
       | (Raise e, w') => (Raise e, w')
       end.
(** [try: m except Exception as exc: ...], handing the outcome on. *)
Definition attempt {A} (m : M A) : M (result A) :=
  λ w, let '(r, w') := m w in (Ok r, w').

#[local] Notation "'let*' x ':=' m 'in' k" := (mbind m (λ x, k))
  (at level 10, x pattern, m at level 100, k at level 200).
#[local] Notation "m ';;' k" := (mbind m (λ _, k))
  (at level 100, k at level 200, right associativity).

Fixpoint foldM {A B} (f : A → B → M A) (a : A) (l : list B) : M A :=
  match l with
  | [] => ret a
  | b :: l' => let* a' := f a b in foldM f a' l'
  end.

Definition now : M nat :=
  λ w, (Ok (clock w),
        World (file w) (S (clock w)) (mem w) (env w) (sent w)
              (ds_log w) (exec_log w)).

(** [session.append(entry)] *)
Definition session_append (entry : dict) : M unit :=
  let* t := now in
  λ w, (Ok tt,
        World (Session.append (utc_isoformat t) entry (file w))
              (clock w) (mem w) (env w) (sent w) (ds_log w) (exec_log w)).

(** [session.clear()] *)
Definition session_clear : M unit :=
  session_append {[ "_compact_marker" := JBool true ]}.

(** [send_message(text, reply_markup=markup)]; failures of the
    transport are swallowed there. *)
Definition send_message (text : string) (markup : option string)
  : M unit :=
  λ w, (Ok tt,
        World (file w) (clock w) (mem w) (env w)
              (sent w ++ [(text, markup)]) (ds_log w) (exec_log w)).

Definition _ds_request (o : origin) (messages : list dict)
    (tools : list string) : M ds_message :=
  λ w, let r := ds_service (length (ds_log w)) messages tools in
       (r, World (file w) (clock w) (mem w) (env w) (sent w)
                 (ds_log w ++ [(o, r)]) (exec_log w)).

Definition strftime (fmt : string) : M string :=
  let* t := now in ret (utc_strftime fmt t).

(** [with open(path, "a") as fh: fh.write(entry)] *)
Definition append_memory (name entry : string) : M unit :=
  λ w, match open_error name (mem w) with
       | Some msg => (Raise (Exn "OSError" msg), w)
       | None =>
           (Ok tt,
            World (file w) (clock w)
                  (<[name := default [] (mem w !! name) ++ [entry]]> (mem w))
                  (env w) (sent w) (ds_log w) (exec_log w))
       end.

(** [content.strip()] *)
Definition strip_method (content : jvalue) : result string :=
  match content with
  | JStr s => Ok (strip s)
  | _ => Raise (Exn "AttributeError"
                    ("'" +:+ type_name content +:+
                     "' object has no attribute 'strip'"))
  end.

Definition tool_write_memory (content target : jvalue) : M string :=
  if negb (eq_str (Some target) "memory" || eq_str (Some target) "daily")
  then ret "ERROR: target must be 'memory' or 'daily'"
  else if negb (truthy content) then ret "ERROR: content is required"
  else
    match py_len content with
    | None => raise (no_len content)
    | Some n =>
        if (MAX_MEMORY_CONTENT <? n)%nat then
          ret ("ERROR: content too long (" +:+ pretty n +:+
               " chars, max " +:+ pretty MAX_MEMORY_CONTENT +:+ ")")
        else
          let* r := attempt (
            let* name_ts :=
              if eq_str (Some target) "daily" then
                let* today := strftime "%Y-%m-%d" in
                let* timestamp := strftime "%H:%M UTC" in
                ret (today +:+ ".md", timestamp)
              else
                let* timestamp := strftime "%Y-%m-%d %H:%M UTC" in
                ret ("MEMORY.md", timestamp) in
            let* text := lift (strip_method content) in
            let entry :=
              NL +:+ "## " +:+ name_ts.2 +:+ NL +:+ text +:+ NL in
            append_memory name_ts.1 entry;;
            ret ("Written to " +:+ name_ts.1)) in
          match r with
          | Ok s => ret s
          | Raise exc => ret ("ERROR writing memory: " +:+ exn_str exc)
          end
    end.

(** The entries of [TOOL_DISPATCH]. *)
Definition run_tool_impl (name : string) (args : jvalue) : M string :=
  λ w, let '(r, e') := tool_impl name args (mem w) (env w) in
       (r, World (file w) (clock w) (mem w) e' (sent w) (ds_log w)
                 (exec_log w)).

Definition write_memory_entry (args : jvalue) : M string :=
  let* content := lift (getitem args "content") in
  let* target := lift (get_or args "target" (JStr "memory")) in
  tool_write_memory content target.

(** [TOOL_DISPATCH.get(name)] *)
Definition TOOL_DISPATCH (name : string) : option (jvalue → M string) :=
  if bool_decide (name ∈ TOOL_NAMES) then
    Some (if String.eqb name "write_memory" then write_memory_entry
          else run_tool_impl name)
  else None.

(** [mcp_manager.is_mcp_tool(name)] *)
Definition is_mcp_tool (name : string) (e : E) : bool :=
  startswith "mcp_" name &&
  existsb (λ sn, startswith ("mcp_" +:+ sn +:+ "_") name) (mcp_servers e).

Definition mcp_call (name : string) (args : jvalue) : M string :=
  λ w, let '(r, e') := mcp_call_tool name args (env w) in
       (r, World (file w) (clock w) (mem w) e' (sent w) (ds_log w)
                 (exec_log w)).

(** Running an executor from the loop leaves a trace. *)
Definition log_exec (k : executor_kind) (name : string) : M unit :=
  λ w, (Ok tt,
        World (file w) (clock w) (mem w) (env w) (sent w) (ds_log w)
              (exec_log w ++ [(k, name)])).

Definition traced {A} (k : executor_kind) (name : string) (m : M A)
  : M A :=
  log_exec k name;; m.

(** [try: tool_result = m except Exception as exc:
    tool_result = f"ERROR: {exc}"] *)
Definition error_text (m : M string) : M string :=
  let* r := attempt m in
  match r with
  | Ok s => ret s
  | Raise exc => ret ("ERROR: " +:+ exn_str exc)
  end.

(** [_filter_tools(allowed)], as tool names. *)
Definition _filter_tools (allowed : option (gset string))
  : M (list string) :=
  λ w, let mcp_tools := mcp_tool_names (env w) in
       (Ok match allowed with
           | Some a =>
               if bool_decide (a = ∅) then TOOL_NAMES ++ mcp_tools
               else filter (λ n, n ∈ a) TOOL_NAMES
                    ++ filter (λ n, n ∈ a) mcp_tools
           | None => TOOL_NAMES ++ mcp_tools
           end, w).

Definition load_context_m : M (list dict) :=
  λ w, (Session.load_context CFG (file w), w).

(** ** _compact_session *)

(** What the inner [try] of the loop over [msg["tool_calls"]] runs
    for a [write_memory] call. *)
Definition write_call (tc : tool_call) : M string :=
  let* fn_args :=
    lift (match json_loads (tc_arguments tc) with
          | Some v => Ok v
          | None => Raise (Exn "JSONDecodeError" "Expecting value")
          end) in
  let* content := lift (getitem fn_args "content") in
  let* target := lift (get_or fn_args "target" (JStr "memory")) in
  tool_write_memory content target.

(** The body of [for tc in msg["tool_calls"]]; the state is
    [(write_calls, write_failures)]. *)
Definition flush_call (st : nat * nat) (tc : tool_call) : M (nat * nat) :=
  let '(write_calls, write_failures) := st in
  if String.eqb (tc_name tc) "write_memory" then
    let* r := attempt (write_call tc) in
    match r with
    | Ok res =>
        if startswith "ERROR" res
        then ret (S write_calls, S write_failures)
        else ret (S write_calls, write_failures)
    | Raise _ => ret (S write_calls, S write_failures)
    end
  else ret st.

Definition SUMMARY_SYSTEM : dict :=
  {[ "role" := JStr "system";
     "content" := JStr ("You are a memory extraction assistant. Analyze the conversation below " +:+
        "and extract key facts, decisions, operator preferences, and task outcomes " +:+
        "worth remembering. Call write_memory for each important item. " +:+
        "Be concise — only save genuinely useful information.") ]}.

Definition SUMMARY_USER : dict :=
  {[ "role" := JStr "user";
     "content" := JStr ("Summarize the key facts from this conversation and write them to memory. " +:+
        "Use write_memory with target='memory' for permanent facts and " +:+
        "target='daily' for session-specific notes.") ]}.

(** What the [try] block of [_compact_session] leaves in
    [memory_flush_ok] when it ends without an exception. *)
Definition memory_flush (messages : list dict) : M bool :=
  let summary_messages := SUMMARY_SYSTEM :: messages ++ [SUMMARY_USER] in
  let summary_tools :=
    filter (λ n, n = "write_memory") TOOL_NAMES in
  let* msg := _ds_request FromCompaction summary_messages summary_tools in
  match msg_tool_calls msg with
  | _ :: _ =>
      let* counts := foldM flush_call (0, 0)%nat (msg_tool_calls msg) in
      ret ((0 <? counts.1)%nat && (counts.2 =? 0)%nat)
  | [] =>
      match msg_content msg with
      | Some content =>
          if negb (String.eqb content "") then
            let* res := tool_write_memory (JStr content) (JStr "daily") in
            ret (negb (startswith "ERROR" res))
          else ret false
      | None => ret false
      end
  end.

Definition _compact_session : M unit :=
  let* messages := load_context_m in
  match messages with
  | [] => session_clear
  | _ :: _ =>
      let* r := attempt (memory_flush messages) in
      let memory_flush_ok :=
        match r with Ok b => b | Raise _ => false end in
      if memory_flush_ok then session_clear else ret tt
  end.

(** ** agent_respond *)

Definition NOT_ALLOWED (fn_name : string) : string :=
  "ERROR: tool '" +:+ fn_name +:+ "' is not allowed in this context".

(** The body of [for tc in msg["tool_calls"]]; the state is
    [spawned_task_id]. *)
Definition run_tool_call (allowed_tool_names : option (gset string))
    (spawned_task_id : option string) (tc : tool_call)
  : M (option string) :=
  let fn_name := tc_name tc in
  let fn_args := default (JObj ∅) (json_loads (tc_arguments tc)) in
  let denied :=
    match allowed_tool_names with
    | Some a => bool_decide (fn_name ∉ a)
    | None => false
    end in
  let* tool_result :=
    if denied then ret (NOT_ALLOWED fn_name)
    else
      match TOOL_DISPATCH fn_name with
      | Some executor =>
          error_text (traced Local fn_name (executor fn_args))
      | None =>
          let* e := (λ w, (Ok (env w), w)) in
          if is_mcp_tool fn_name e
          then error_text (traced Provider fn_name
                                  (mcp_call fn_name fn_args))
          else ret ("Unknown tool: " +:+ fn_name)
      end in
  let spawned_task_id :=
    if String.eqb fn_name "spawn_agent" && contains "[SPAWNED" tool_result
    then match search_task_id tool_result with
         | Some m => Some m
         | None => spawned_task_id
         end
    else spawned_task_id in
  session_append {[ "role" := JStr "tool";
                    "tool_call_id" := JStr (tc_id tc);
                    "content" := JStr (str_take 3000 tool_result) ]};;
  ret spawned_task_id.

Definition API_ERROR (exc : exn) : string :=
  "(DeepSeek API error: " +:+ exn_str exc +:+ ")".

Definition EXHAUST_MSG : string := "(max tool iterations reached)".

Definition assistant (content : string) : dict :=
  {[ "role" := JStr "assistant"; "content" := JStr content ]}.

(** [for iteration in range(iterations): ...] and what follows the
    loop; [spawned_task_id] is carried from turn to turn. *)
Fixpoint agent_loop (iterations : nat)
    (allowed_tool_names : option (gset string))
    (active_tools : list string) (spawned_task_id : option string)
  : M string :=
  match iterations with
  | O =>
      session_append (assistant EXHAUST_MSG);;
      send_message "(reached max tool iterations — try a simpler request)"
                   None;;
      ret EXHAUST_MSG
  | S iterations' =>
      let* context := load_context_m in
      let* prompt :=
        (λ w, (Ok (_build_system_prompt (clock w) (mem w) (env w)), w)) in
      let messages :=
        {[ "role" := JStr "system"; "content" := JStr prompt ]}
          :: context in
      let* response := attempt (_ds_request FromLoop messages active_tools) in
      match response with
      | Raise exc =>
          let reply := API_ERROR exc in
          session_append (assistant reply);;
          send_message reply None;;
          ret reply
      | Ok msg =>
          match msg_tool_calls msg with
          | _ :: _ =>
              session_append
                (<["tool_calls" :=
                     JArr (tool_call_json <$> msg_tool_calls msg)]>
                   (assistant (default "" (msg_content msg))));;
              (match msg_content msg with
               | Some c =>
                   if negb (String.eqb c "") then send_message c None
                   else ret tt
               | None => ret tt
               end);;
              let* spawned_task_id :=
                foldM (run_tool_call allowed_tool_names) spawned_task_id
                      (msg_tool_calls msg) in
              agent_loop iterations' allowed_tool_names active_tools
                         spawned_task_id
          | [] =>
              match msg_content msg with
              | None =>
                  raise (Exn "AttributeError"
                             "'NoneType' object has no attribute 'strip'")
              | Some c =>
                  let reply := strip c in
                  let reply :=
                    if String.eqb reply "" then "(no response)"
                    else reply in
                  session_append (assistant reply);;
                  send_message reply spawned_task_id;;
                  ret reply
              end
          end
      end
  end.

Definition max_iterations : nat := 5.

Definition agent_respond (user_message : string)
    (allowed_tool_names : option (gset string)) : M string :=
  session_append {[ "role" := JStr "user";
                    "content" := JStr user_message ]};;
  let max_msgs := ctx_get (context CFG) "max_messages" 100 in
  let* count := (λ w, (Ok (Session.message_count (file w)), w)) in
  (if max_msgs <? Z.of_nat count then _compact_session else ret tt);;
  let* active_tools := _filter_tools allowed_tool_names in
  agent_loop max_iterations allowed_tool_names active_tools None.

End Runtime.

Arguments world E : clear implicits.
Arguments M E A : clear implicits.

End Agent.

(* ===================================================================== *)
(** * Vocabulary of the statements *)
(* ===================================================================== *)

Section SessionVocabulary.
Import Session.

(** The reading loop of [load_context] seen from its result: a marker
    empties what has been kept, any other entry is added to it. *)
Definition live_step (kept : list dict) (ln : line) : list dict :=
  match ln with
  | Unparsable _ => kept
  | Parsed entry =>
      if get_truthy entry "_compact_marker" then [] else kept ++ [entry]
  end.

(** [m.get("role") == "tool"] *)
Definition is_tool_result (m : dict) : bool := eq_str (m !! "role") "tool".

(** [len(m.get("content", ""))], where it has a length. *)
Definition content_len (m : dict) : option nat :=
  py_len (default (JStr "") (m !! "content")).

(** The content is longer than the 100 characters written in the code. *)
Definition oversized (m : dict) : bool :=
  match content_len m with
  | Some n => (100 <? n)%nat
  | None => false
  end.

Definition truncate (m : dict) : dict := <["content" := PLACEHOLDER]> m.

Definition prune_rule (m : dict) : dict :=
  if is_tool_result m && oversized m then truncate m else m.

(** The content of a tool result can be measured: [len] does not raise. *)
Definition has_len (m : dict) : Prop :=
  is_tool_result m = true → is_Some (content_len m).

(** Record [i] of [len] lies before the tail of [keep] records that the
    pruning pass leaves alone, and the pass is switched on. *)
Definition older_than_tail (keep : Z) (len i : nat) : bool :=
  (0 <? keep) && (Z.of_nat i + keep <? Z.of_nat len).

Definition user_msg (text : string) : dict :=
  {[ "role" := JStr "user"; "content" := JStr text ]}.

Definition tool_msg (id content : string) : dict :=
  {[ "role" := JStr "tool"; "tool_call_id" := JStr id;
     "content" := JStr content ]}.

(** A text of [n] characters. *)
Fixpoint xs (n : nat) : string :=
  match n with
  | O => ""
  | S n' => String "x" (xs n')
  end.

(** The file after appending the given entries, all at one instant. *)
Definition stored (entries : list dict) : list line :=
  fold_left (λ f e, append "2026-01-01T00:00:00+00:00" e f) entries [].

(** A policy whose tail is 2 records, and three stored tool results: the
    oldest has 120 characters, the others 3. *)
Definition TAIL_OF_TWO : config :=
  Cfg {[ "max_messages" := 100; "prune_tool_results_after" := 2 ]} [].

Definition three_results : list line :=
  stored [ tool_msg "call_0" (xs 120); tool_msg "call_1" "ok:";
           tool_msg "call_2" "ok:" ].

End SessionVocabulary.

(** Every character of [s] satisfies [p]. *)
Fixpoint str_all (p : ascii → bool) (s : string) : bool :=
  match s with
  | EmptyString => true
  | String c s' => p c && str_all p s'
  end.

(** How many of the firings [fs] are of job [i]. *)
Definition fired_count (i : string) (fs : list (string * string)) : nat :=
  length (filter (λ f, f.1 = i) fs).

Section CronVocabulary.
Import Cron.

(** From [st] to [st'], within minute [M]: job [i] fired at most once, not
    at all if [last_run] already had [M] for it, and [last_run] has [M]
    for it afterwards if it had before or if the job fired. *)
Definition once {W} (i M : string) (st st' : state W) : Prop :=
  ∃ new, firings st' = firings st ++ new
    ∧ (fired_count i new ≤ 1)%nat
    ∧ (last_run st !! i = Some M →
       fired_count i new = 0%nat ∧ last_run st' !! i = Some M)
    ∧ (fired_count i new = 1%nat → last_run st' !! i = Some M).

(** Thursday 5 March 2026, 08:15:[s] UTC. *)
Definition quarter_past_eight (s : Z) : datetime :=
  DateTime 2026 3 5 8 15 s 3.

(** Thursday 5 March 2026, 08:00:[s] UTC. *)
Definition eight_o_clock (s : Z) : datetime :=
  DateTime 2026 3 5 8 0 s 3.

End CronVocabulary.

Section AgentVocabulary.
Import Session Agent.
Context `{Host E}.

(** [m] takes every world to one related to it by [R], whether it returns
    or raises. *)
Definition stable {A} (R : relation (world E)) (m : M E A) : Prop :=
  ∀ w, R w (m w).2.

(** [m] leaves the component [proj] of the world as it is. *)
Definition keeps {A X} (proj : world E → X) (m : M E A) : Prop :=
  stable (λ w w', proj w' = proj w) m.

(** The executors run from [w] to [w'] are all for names in [A]. *)
Definition exec_within (A : gset string) (w w' : world E) : Prop :=
  ∃ new, exec_log w' = exec_log w ++ new ∧ Forall (λ kn, kn.2 ∈ A) new.

(** A request made by the loop of [agent_respond] that raised. *)
Definition loop_failure (entry : origin * result ds_message) : Prop :=
  ∃ exc, entry = (FromLoop, Raise exc).

(** From [w] to [w'] no request of the loop has failed. *)
Definition quiet (w w' : world E) : Prop :=
  ∃ new, ds_log w' = ds_log w ++ new ∧ Forall (λ e, ¬ loop_failure e) new.

(** A run from [w] that gave [r] and [w']: a failed request of the loop is
    the last request of the run, its notice is the last line of the
    transcript, the last message sent and the value returned. *)
Definition failure_final (w : world E) (r : result string) (w' : world E)
  : Prop :=
  ∃ new, ds_log w' = ds_log w ++ new
    ∧ ∀ pre exc post,
        new = pre ++ (FromLoop, Raise exc) :: post →
        post = [] ∧ r = Ok (API_ERROR exc)
        ∧ (∃ ts, last (file w')
                 = Some (Parsed (<["_ts" := JStr ts]>
                                   (assistant (API_ERROR exc)))))
        ∧ last (sent w') = Some (API_ERROR exc, None).

Definition ends_on_failure (m : M E string) : Prop :=
  ∀ w, failure_final w (m w).1 (m w).2.

(** What each [write_memory] call of [tcs] gives, in order, and the world
    after them. *)
Fixpoint write_results (tcs : list tool_call) (w : world E)
  : list (result string) * world E :=
  match tcs with
  | [] => ([], w)
  | tc :: rest =>
      if String.eqb (tc_name tc) "write_memory" then
        let '(r, w1) := write_call tc w in
        let '(rs, w2) := write_results rest w1 in
        (r :: rs, w2)
      else write_results rest w
  end.

(** A memory write succeeded: it returned, and not an ["ERROR..."] text. *)
Definition succeeded (r : result string) : bool :=
  match r with
  | Ok res => negb (startswith "ERROR" res)
  | Raise _ => false
  end.

Definition failures (rs : list (result string)) : nat :=
  length (filter (λ r, succeeded r = false) rs).

(** Whether the memory flush counts as done, given the reply of the
    reasoning service and the world [w1] it was received in: with tool
    calls, there is a [write_memory] call and every one of them succeeded;
    without, the reply has a text and writing it to the daily log
    succeeded. *)
Definition flush_ok (reply : result ds_message) (w1 : world E) : bool :=
  match reply with
  | Raise _ => false
  | Ok msg =>
      match msg_tool_calls msg with
      | [] =>
          match msg_content msg with
          | Some c =>
              negb (String.eqb c "")
              && succeeded (tool_write_memory (JStr c) (JStr "daily") w1).1
          | None => false
          end
      | tcs =>
          let rs := (write_results tcs w1).1 in
          negb (Nat.eqb (length rs) 0) && forallb succeeded rs
      end
  end.

(** The messages [_compact_session] sends to the reasoning service. *)
Definition summary_of (messages : list dict) : list dict :=
  SUMMARY_SYSTEM :: messages ++ [SUMMARY_USER].

End AgentVocabulary.

(* ===================================================================== *)
(** * A host to run the loop on *)
(* ===================================================================== *)

Section Fixtures.
Import Session Agent.

Definition QUOTE : string := String "034" "".

(** The JSON text of [{"content": "squash merges only"}]. *)
Definition FACT_ARGS : string :=
  "{" +:+ QUOTE +:+ "content" +:+ QUOTE +:+ ": " +:+ QUOTE
  +:+ "squash merges only" +:+ QUOTE +:+ "}".

(** [json.loads] on the three texts the fixtures use. *)
Definition demo_json_loads (s : string) : option jvalue :=
  if String.eqb s FACT_ARGS
  then Some (JObj {[ "content" := JStr "squash merges only" ]})
  else if String.eqb s "{}" then Some (JObj ∅)
  else None.

Definition TIMED_OUT : exn := Exn "URLError" "<urlopen error timed out>".

(** A host with no provider and a working disk, whose reasoning service
    gives [replies] in order and times out after them. *)
Definition demo_host (replies : list (result ds_message)) : Host unit :=
  {| CFG := DEFAULT_CONFIG;
     utc_isoformat := λ n, "2026-01-01T00:00:" +:+ zfill 2 (pretty n)
                           +:+ "+00:00";
     utc_strftime := λ fmt _,
       if String.eqb fmt "%Y-%m-%d" then "2026-01-01"
       else if String.eqb fmt "%H:%M UTC" then "00:00 UTC"
       else "2026-01-01 00:00 UTC";
     json_loads := demo_json_loads;
     ds_service := λ n _ _, default (Raise TIMED_OUT) (replies !! n);
     open_error := λ _ _, None;
     tool_impl := λ name _ _ e, (Ok ("ran " +:+ name), e);
     mcp_servers := λ _, [];
     mcp_tool_names := λ _, [];
     mcp_call_tool := λ _ _ e, (Ok "", e);
     _build_system_prompt := λ _ _ _, "You are Seabone." |}.

(** A fresh process on the given transcript. *)
Definition demo_world (file : list line) : world unit :=
  World file 0 ∅ tt [] [] [].

(** A reply with two memory writes: the first is well formed, the
    arguments of the second are not JSON. *)
Definition TWO_WRITES : ds_message :=
  DsMessage None
    [ ToolCall "call_1" "write_memory" FACT_ARGS;
      ToolCall "call_2" "write_memory" "not json" ].

(** A reply with one well-formed memory write. *)
Definition ONE_WRITE : ds_message :=
  DsMessage None [ ToolCall "call_1" "write_memory" FACT_ARGS ].

End Fixtures.


(* ===================================================================== *)
(** * The transcript: compaction, bounding, truncation *)
(* ===================================================================== *)

Section SessionFacts.
Import Session.

Lemma scan_step_live st ln :
  (st.2 ≤ length st.1)%nat →
  ((scan_step st ln).2 ≤ length (scan_step st ln).1)%nat ∧
  drop (scan_step st ln).2 (scan_step st ln).1
  = live_step (drop st.2 st.1) ln.
Proof.
  destruct st as [es i], ln as [raw|entry]; simpl; intros Hi; [done|].
  destruct (get_truthy entry "_compact_marker"); simpl.
  - split; [done|]. by rewrite drop_all.
  - rewrite length_app; simpl. split; [lia|].
    by rewrite drop_app_le by lia.
Qed.

Lemma scan_fold_live file : ∀ st,
  (st.2 ≤ length st.1)%nat →
  let st' := fold_left scan_step file st in
  (st'.2 ≤ length st'.1)%nat ∧
  drop st'.2 st'.1 = fold_left live_step file (drop st.2 st.1).
Proof.
  induction file as [|ln file IH]; intros st Hst; simpl; [done|].
  destruct (scan_step_live st ln Hst) as [H1 H2].
  destruct (IH _ H1) as [H3 H4]. split; [done|]. by rewrite H4, H2.
Qed.

Lemma after_marker_live file :
  after_marker file = fold_left live_step file [].
Proof.
  unfold after_marker, scan.
  destruct (scan_fold_live file ([], 0%nat)) as [_ H]; [simpl; lia|].
  simpl in H. destruct (fold_left scan_step file ([], 0%nat)) as [es i].
  simpl in H. rewrite <- H.
  destruct (0 <? i)%nat eqn:E; [done|].
  apply Nat.ltb_ge in E. by replace i with 0%nat by lia.
Qed.

Lemma live_fold_reset later : ∀ kept file marker,
  get_truthy marker "_compact_marker" = true →
  fold_left live_step (file ++ Parsed marker :: later) kept
  = fold_left live_step later [].
Proof.
  intros kept file marker Hm. rewrite fold_left_app. simpl. by rewrite Hm.
Qed.

Lemma clear_marker ts :
  get_truthy (<["_ts" := JStr ts]> {[ "_compact_marker" := JBool true ]})
             "_compact_marker" = true.
Proof.
  unfold get_truthy. rewrite lookup_insert_ne by done.
  by rewrite lookup_singleton_eq.
Qed.


Lemma trim_to_max_nil max_msgs : trim_to_max max_msgs [] = [].
Proof.
  unfold trim_to_max, slice_from. simpl.
  destruct (max_msgs <? _); [|done]. by rewrite drop_nil.
Qed.

Lemma prune_old_nil prune_after : prune_old prune_after [] = Ok [].
Proof.
  unfold prune_old. simpl length. change (Z.of_nat 0) with 0.
  destruct (0 <? prune_after) eqn:E1, (prune_after <? 0) eqn:E2; try done.
  apply Z.ltb_lt in E1, E2. lia.
Qed.

(** C4.  After [clear] has appended its marker, [load_context] returns
    nothing until something is appended, then returns what it would
    return on the later lines alone; [clear] itself only adds a line at
    the end of the file, so no stored record is deleted. *)
Theorem clear_hides_history cfg file ts later :
  load_context cfg (clear ts file) = Ok []
  ∧ load_context cfg (clear ts file ++ later) = load_context cfg later
  ∧ ∃ marker, get_truthy marker "_compact_marker" = true
              ∧ clear ts file = file ++ [Parsed marker].
Proof.
  pose proof (clear_marker ts) as Hm.
  assert (Hlater : ∀ l, after_marker (clear ts file ++ l) = after_marker l).
  { intros l. rewrite !after_marker_live. unfold clear, append.
    rewrite <- app_assoc. simpl. by apply live_fold_reset. }
  split; [|split].
  - specialize (Hlater []). rewrite app_nil_r in Hlater.
    unfold load_context, trimmed. rewrite Hlater. unfold after_marker. simpl.
    unfold to_messages. simpl. rewrite filter_nil.
    by rewrite trim_to_max_nil, prune_old_nil.
  - unfold load_context, trimmed. by rewrite Hlater.
  - eexists. split; [exact Hm|]. reflexivity.
Qed.

Lemma prune_at_rule messages i m :
  messages !! i = Some m → has_len m →
  prune_at messages i = Ok (<[i := prune_rule m]> messages).
Proof.
  intros Hi Hlen. unfold prune_at, prune_rule, oversized. rewrite Hi.
  unfold has_len, is_tool_result, content_len in *.
  destruct (eq_str (m !! "role") "tool"); simpl.
  - destruct Hlen as [n Hn]; [done|]. rewrite Hn.
    destruct (100 <? n)%nat; [done|]. by rewrite list_insert_id.
  - by rewrite list_insert_id.
Qed.

Lemma prune_loop_app l1 : ∀ l2 messages,
  prune_loop (l1 ++ l2) messages
  = bind (prune_loop l1 messages) (prune_loop l2).
Proof.
  induction l1 as [|i l1 IH]; intros l2 messages; simpl; [done|].
  destruct (prune_at messages i); simpl; [apply IH|done].
Qed.

Lemma prune_loop_rule messages : ∀ cutoff,
  (cutoff ≤ length messages)%nat →
  Forall has_len (take cutoff messages) →
  prune_loop (seq 0 cutoff) messages
  = Ok ((prune_rule <$> take cutoff messages) ++ drop cutoff messages).
Proof.
  induction cutoff as [|c IH]; intros Hc Hall.
  - simpl. by rewrite drop_0.
  - destruct (lookup_lt_is_Some_2 messages c) as [m Hm]; [lia|].
    rewrite (take_S_r _ _ _ Hm) in Hall.
    apply Forall_app in Hall as [Hall Hm'].
    rewrite Forall_singleton in Hm'.
    rewrite seq_S, prune_loop_app, IH by (done || lia). simpl.
    assert (Hlen : length (prune_rule <$> take c messages) = c)
      by (rewrite length_fmap, length_take_le; lia).
    assert (HL : ((prune_rule <$> take c messages) ++ drop c messages) !! c
                 = Some m).
    { rewrite lookup_app_r by lia. rewrite Hlen, Nat.sub_diag.
      by rewrite lookup_drop, Nat.add_0_r. }
    rewrite (prune_at_rule _ _ m HL Hm'). simpl. f_equal.
    rewrite (take_S_r _ _ _ Hm), fmap_app. simpl.
    rewrite insert_app_r_alt by lia.
    rewrite Hlen, Nat.sub_diag, <- app_assoc. f_equal.
    by rewrite (drop_S _ _ _ Hm).
Qed.


Lemma prune_old_rule keep messages :
  (∀ i m, messages !! i = Some m →
          older_than_tail keep (length messages) i = true → has_len m) →
  ∃ msgs, prune_old keep messages = Ok msgs
    ∧ length msgs = length messages
    ∧ ∀ i m, messages !! i = Some m →
        msgs !! i = Some (if older_than_tail keep (length messages) i
                          then prune_rule m else m).
Proof.
  intros Hlen. unfold prune_old.
  destruct ((0 <? keep) && (keep <? Z.of_nat (length messages))) eqn:G.
  - apply andb_true_iff in G as [G1 G2].
    apply Z.ltb_lt in G1, G2.
    set (cutoff := Z.to_nat (Z.of_nat (length messages) - keep)).
    assert (Hc : (cutoff ≤ length messages)%nat) by lia.
    assert (Hold : ∀ i, older_than_tail keep (length messages) i
                        = bool_decide (i < cutoff)%nat).
    { intros i. unfold older_than_tail.
      destruct (0 <? keep) eqn:E; [|apply Z.ltb_ge in E; lia]. simpl.
      case_bool_decide; [apply Z.ltb_lt|apply Z.ltb_ge]; lia. }
    rewrite prune_loop_rule; [|done|].
    + eexists. split; [done|]. split.
      * rewrite length_app, length_fmap, length_take, length_drop. lia.
      * intros i m Hi. rewrite Hold. case_bool_decide as Hlt.
        -- rewrite lookup_app_l by (rewrite length_fmap, length_take; lia).
           by rewrite list_lookup_fmap, lookup_take_lt, Hi by done.
        -- rewrite lookup_app_r by (rewrite length_fmap, length_take; lia).
           rewrite length_fmap, length_take_le, lookup_drop by lia.
           rewrite <- Hi. f_equal. lia.
    + apply Forall_forall. intros m Hin.
      apply list_elem_of_lookup in Hin as [i Hi].
      apply lookup_take_Some in Hi as [Hi Hlt].
      apply (Hlen i m Hi). rewrite Hold. by apply bool_decide_eq_true.
  - eexists. split; [done|]. split; [done|].
    intros i m Hi. apply lookup_lt_Some in Hi as Hlt.
    replace (older_than_tail keep (length messages) i) with false; [done|].
    symmetry. unfold older_than_tail.
    apply andb_false_iff in G as [G|G]; [by rewrite G|].
    apply Z.ltb_ge in G. apply andb_false_iff. right.
    apply Z.ltb_ge. lia.
Qed.

(** C1, amended.  Let [before] be the messages kept after the cap
    [max_messages] and [keep] the policy value [prune_tool_results_after].
    Provided the content of every tool result that lies before the last
    [keep] messages has a length, [load_context] returns as many messages
    as [before], and message [i] is [before]'s with its content replaced
    by ["[truncated]"] exactly when [keep] is positive, the message lies
    before the last [keep] messages, it is a tool result and its content
    is longer than 100 characters; every other message is returned as it
    is.  The tail length comes from the policy, the 100 does not. *)
Theorem truncation_rule cfg file :
  let before := trimmed (context cfg) file in
  let keep := ctx_get (context cfg) "prune_tool_results_after" 15 in
  (∀ i m, before !! i = Some m →
          older_than_tail keep (length before) i = true → has_len m) →
  ∃ msgs, load_context cfg file = Ok msgs
    ∧ length msgs = length before
    ∧ ∀ i m, before !! i = Some m →
        msgs !! i =
          Some (if older_than_tail keep (length before) i
                   && is_tool_result m && oversized m
                then truncate m else m).
Proof.
  intros before keep Hlen.
  destruct (prune_old_rule keep before Hlen) as (msgs & Hr & Hl & Hi).
  exists msgs. split; [done|]. split; [done|].
  intros i m Him. rewrite (Hi i m Him). unfold prune_rule.
  by destruct (older_than_tail keep (length before) i).
Qed.


Lemma prune_at_length messages i msgs :
  prune_at messages i = Ok msgs → length msgs = length messages.
Proof.
  unfold prune_at. destruct (messages !! i) as [m|]; [|by intros [= <-]].
  destruct (eq_str (m !! "role") "tool"); [|by intros [= <-]].
  destruct (py_len _) as [n|]; [|done].
  destruct (100 <? n)%nat; intros [= <-]; [|done]. by rewrite length_insert.
Qed.

Lemma prune_loop_length idxs : ∀ messages msgs,
  prune_loop idxs messages = Ok msgs → length msgs = length messages.
Proof.
  induction idxs as [|i idxs IH]; intros messages msgs; simpl.
  - by intros [= <-].
  - destruct (prune_at messages i) as [m1|] eqn:E; simpl; [|done].
    intros H. rewrite (IH _ _ H). by apply prune_at_length in E.
Qed.

Lemma prune_old_length keep messages msgs :
  prune_old keep messages = Ok msgs → length msgs = length messages.
Proof.
  unfold prune_old. destruct (_ && _); [apply prune_loop_length|].
  by intros [= <-].
Qed.

Lemma trim_to_max_last max_msgs (messages : list dict) :
  1 ≤ max_msgs < Z.of_nat (length messages) →
  trim_to_max max_msgs messages
  = drop (length messages - Z.to_nat max_msgs) messages.
Proof.
  intros [H1 H2]. unfold trim_to_max, slice_from.
  destruct (max_msgs <? _) eqn:E; [|apply Z.ltb_ge in E; lia].
  destruct (- max_msgs <? 0) eqn:E2; [|apply Z.ltb_ge in E2; lia].
  f_equal. lia.
Qed.

(** Where [max_messages] is at least 1, the trim keeps the last
    [max_messages] messages, and [load_context] returns that many. *)
Lemma load_context_bounded cfg file msgs :
  let messages := to_messages (after_marker file) in
  let max_msgs := ctx_get (context cfg) "max_messages" 100 in
  1 ≤ max_msgs < Z.of_nat (length messages) →
  load_context cfg file = Ok msgs →
  trimmed (context cfg) file
    = drop (length messages - Z.to_nat max_msgs) messages
  ∧ Z.of_nat (length msgs) = max_msgs.
Proof.
  intros messages max_msgs Hmax Hload. unfold load_context in Hload.
  apply prune_old_length in Hload. rewrite Hload.
  unfold trimmed. fold messages max_msgs.
  rewrite trim_to_max_last by done. split; [done|].
  rewrite length_drop. lia.
Qed.

(** C5, at the failing input.  With [max_messages = 0] and three
    role-bearing records stored, [len(messages) > max_msgs] holds and
    [messages[-0:]] is the whole list: [load_context] returns the three
    records, not none. *)
Theorem trim_keeps_everything_when_max_is_zero :
  let cfg := Cfg {[ "max_messages" := 0 ]} [] in
  let file := stored [user_msg "a"; user_msg "b"; user_msg "c"] in
  load_context cfg file = Ok [user_msg "a"; user_msg "b"; user_msg "c"].
Proof. vm_compute. reflexivity. Qed.

(** C1, counterexample.  With a tail of 0 records, a tool result is older
    than the tail whatever its size [n], and it is returned untouched;
    with a tail of 1, whatever else the caller puts in the policy, a tool
    result of 101 characters is replaced and one of 100 is not. *)
Lemma truncation_threshold_is_fixed :
  (∀ n, load_context (Cfg {[ "prune_tool_results_after" := 0 ]} [])
                     (stored [tool_msg "c1" (xs n)])
        = Ok [tool_msg "c1" (xs n)])
  ∧ (∀ policy : gmap string Z,
       let cfg := Cfg (<["prune_tool_results_after" := 1]>
                         (<["max_messages" := 100]> policy)) [] in
       load_context cfg (stored [tool_msg "c1" (xs 101); user_msg "next"])
       = Ok [truncate (tool_msg "c1" (xs 101)); user_msg "next"]
       ∧ load_context cfg (stored [tool_msg "c1" (xs 100); user_msg "next"])
         = Ok [tool_msg "c1" (xs 100); user_msg "next"]).
Proof.
  split.
  - intros n. vm_compute. reflexivity.
  - intros policy cfg. unfold cfg, load_context, trimmed, ctx_get.
    simpl context.
    rewrite lookup_insert_eq, lookup_insert_ne, lookup_insert_eq by done.
    split; vm_compute; reflexivity.
Qed.

Lemma three_results_have_len :
  Forall has_len (trimmed (context TAIL_OF_TWO) three_results).
Proof.
  replace (trimmed (context TAIL_OF_TWO) three_results)
    with [ tool_msg "call_0" (xs 120); tool_msg "call_1" "ok:";
           tool_msg "call_2" "ok:" ] by (vm_compute; reflexivity).
  repeat constructor; intros _; vm_compute; by eexists.
Qed.

(** C1, witness: three tool results under a policy whose tail is 2; only
    the oldest lies before the tail. *)
Lemma truncation_rule_witness :
  let before := trimmed (context TAIL_OF_TWO) three_results in
  let keep := ctx_get (context TAIL_OF_TWO) "prune_tool_results_after" 15 in
  (∀ i m, before !! i = Some m →
          older_than_tail keep (length before) i = true → has_len m)
  ∧ ∃ msgs, load_context TAIL_OF_TWO three_results = Ok msgs
      ∧ length msgs = length before
      ∧ ∀ i m, before !! i = Some m →
          msgs !! i =
            Some (if older_than_tail keep (length before) i
                     && is_tool_result m && oversized m
                  then truncate m else m).
Proof.
  intros before keep.
  assert (Hlen : ∀ i m, before !! i = Some m →
            older_than_tail keep (length before) i = true → has_len m).
  { intros i m Hi _.
    exact (proj1 (Forall_lookup _ _) three_results_have_len i m Hi). }
  split; [exact Hlen|].
  exact (truncation_rule TAIL_OF_TWO three_results Hlen).
Defined.

(** The scenario of the truncation rule: the oldest of three results is
    replaced, the two in the tail are returned as they are. *)
Example three_results_pruned :
  load_context TAIL_OF_TWO three_results
  = Ok [ truncate (tool_msg "call_0" (xs 120)); tool_msg "call_1" "ok:";
         tool_msg "call_2" "ok:" ].
Proof. vm_compute. reflexivity. Qed.

End SessionFacts.



(* ===================================================================== *)
(** * Where a session key is stored *)
(* ===================================================================== *)

Section PathFacts.
Import SessionPath.

Lemma str_all_app p s1 s2 :
  str_all p (s1 +:+ s2) = str_all p s1 && str_all p s2.
Proof.
  induction s1 as [|c s1 IH]; simpl; [done|].
  by rewrite IH, andb_assoc.
Qed.

Lemma str_all_weaken (p q : ascii → bool) s :
  (∀ c, p c = true → q c = true) → str_all p s = true → str_all q s = true.
Proof.
  intros Hpq. induction s as [|c s IH]; simpl; [done|].
  intros [Hc Hs]%andb_true_iff. by rewrite (Hpq c Hc), IH.
Qed.

Lemma safe_in_class key : str_all in_class (safe key) = true.
Proof.
  unfold safe. induction key as [|c key IH]; simpl; [done|]. rewrite IH.
  by destruct (in_class c) eqn:E; rewrite ?E.
Qed.

Lemma safe_length key : String.length (safe key) = String.length key.
Proof.
  unfold safe. induction key as [|c key IH]; simpl; [done|]. by rewrite IH.
Qed.

Lemma safe_get key : ∀ i,
  String.get i (safe key)
  = (λ c, if in_class c then c else "_"%char) <$> String.get i key.
Proof.
  unfold safe. induction key as [|c key IH]; intros [|i]; simpl; auto.
Qed.

Lemma split_on_absent sep s :
  str_all (λ c, negb (Ascii.eqb c sep)) s = true → split_on sep s = [s].
Proof.
  induction s as [|c s IH]; simpl; [done|].
  intros [Hc Hs]%andb_true_iff.
  apply negb_true_iff in Hc. rewrite Hc. by rewrite (IH Hs).
Qed.

(** A file name made of class characters and a suffix is one path
    component. *)
Lemma path_div_name base stem suffix :
  str_all in_class stem = true →
  str_all Agent.id_char suffix = true →
  (2 ≤ String.length suffix)%nat →
  path_div base (stem +:+ suffix) = base ++ [stem +:+ suffix].
Proof.
  intros Hstem Hsuf Hlen.
  assert (Hall : str_all Agent.id_char (stem +:+ suffix) = true).
  { rewrite str_all_app, Hsuf, andb_true_r.
    apply (str_all_weaken in_class); [|done].
    intros c Hc. unfold Agent.id_char. by rewrite Hc. }
  assert (Hlen' : (2 ≤ String.length (stem +:+ suffix))%nat).
  { clear -Hlen. induction stem; simpl; [done|]. lia. }
  unfold path_div.
  rewrite split_on_absent.
  2:{ apply (str_all_weaken Agent.id_char); [|done].
      intros c Hc. destruct (Ascii.eqb_spec c "/") as [->|]; [|done].
      by vm_compute in Hc. }
  destruct (stem +:+ suffix) as [|c name] eqn:E; [simpl in Hlen'; lia|].
  simpl in Hall. apply andb_true_iff in Hall as [Hc _].
  assert (Hs : startswith "/" (String c name) = false).
  { cbn [startswith].
    destruct (Ascii.eqb_spec "/"%char c) as [<-|_]; [by vm_compute in Hc|done]. }
  rewrite Hs. rewrite filter_cons_True; [done|].
  split; [done|]. intros [= -> ->]. simpl in Hlen'. lia.
Qed.

(** C10.  Whatever the session key, the transcript and the lock are the
    files [safe.jsonl] and [safe.lock] directly in [SESSIONS_DIR], where
    [safe] is the key with every character outside [a-zA-Z0-9_-]
    replaced by an underscore, position by position. *)
Theorem session_files_live_in_sessions_dir
    (SESSIONS_DIR : path) (session_key : string) :
  session_file SESSIONS_DIR session_key
    = SESSIONS_DIR ++ [safe session_key +:+ ".jsonl"]
  ∧ lock_file SESSIONS_DIR session_key
    = SESSIONS_DIR ++ [safe session_key +:+ ".lock"]
  ∧ String.length (safe session_key) = String.length session_key
  ∧ str_all in_class (safe session_key) = true
  ∧ ∀ i, String.get i (safe session_key)
         = (λ c, if in_class c then c else "_"%char)
             <$> String.get i session_key.
Proof.
  pose proof (safe_in_class session_key) as Hsafe.
  split; [|split; [|split; [|split]]].
  - apply path_div_name; [done|by vm_compute|simpl; lia].
  - apply path_div_name; [done|by vm_compute|simpl; lia].
  - apply safe_length.
  - done.
  - apply safe_get.
Qed.
End PathFacts.



(* ===================================================================== *)
(** * The scheduler *)
(* ===================================================================== *)

Section CronMatch.
Import Cron.

Lemma field_star value max_val : _cron_field_matches "*" value max_val = true.
Proof. reflexivity. Qed.

Lemma field_every_15 value :
  _cron_field_matches "*/15" value 59 = (value mod 15 =? 0).
Proof.
  transitivity ((value mod 15 =? 0) || false); [reflexivity|].
  apply orb_false_r.
Qed.

Lemma field_zero value max_val :
  _cron_field_matches "0" value max_val = (0 =? value).
Proof.
  transitivity ((0 =? value) || false); [|apply orb_false_r].
  unfold _cron_field_matches, part_matches; simpl.
  by destruct (max_val =? 7).
Qed.

Lemma field_eight value max_val :
  _cron_field_matches "8" value max_val = (8 =? value).
Proof.
  transitivity ((8 =? value) || false); [|apply orb_false_r].
  unfold _cron_field_matches, part_matches; simpl.
  by destruct (max_val =? 7).
Qed.

Lemma matches_every_15 dt :
  _cron_matches "*/15 * * * *" dt = (minute dt mod 15 =? 0).
Proof.
  transitivity (_cron_field_matches "*/15" (minute dt) 59 && true);
    [reflexivity|].
  by rewrite field_every_15, andb_true_r.
Qed.

Lemma matches_at_8 dt :
  _cron_matches "0 8 * * *" dt = (0 =? minute dt) && (8 =? hour dt).
Proof.
  transitivity (_cron_field_matches "0" (minute dt) 59
                && (_cron_field_matches "8" (hour dt) 23 && true));
    [reflexivity|].
  by rewrite field_zero, field_eight, andb_true_r.
Qed.

(** C8.  At every date and time, ["*/15 * * * *"] matches exactly when
    the minute is 0, 15, 30 or 45, and ["0 8 * * *"] exactly when the hour
    is 8 and the minute is 0. *)
Theorem cron_matches_quarter_hours_and_eight (dt : datetime) :
  valid_datetime dt →
  (_cron_matches "*/15 * * * *" dt = true
     ↔ minute dt ∈ [0; 15; 30; 45])
  ∧ (_cron_matches "0 8 * * *" dt = true
     ↔ hour dt = 8 ∧ minute dt = 0).
Proof.
  intros (_ & _ & _ & _ & Hmin & _). split.
  - rewrite matches_every_15, Z.eqb_eq.
    rewrite !elem_of_cons, elem_of_nil.
    split; [intros Hmod|intros [->|[->|[->|[->|[]]]]]; done].
    assert (minute dt = 15 * (minute dt / 15)) by
      (rewrite (Z.div_mod (minute dt) 15) at 1 by lia; lia).
    assert (0 ≤ minute dt / 15 < 4) by
      (split; [apply Z.div_pos; lia|apply Z.div_lt_upper_bound; lia]).
    lia.
  - rewrite matches_at_8, andb_true_iff, !Z.eqb_eq. lia.
Qed.

(** C8, witness: a quarter past eight on 5 March 2026. *)
Lemma cron_matches_witness :
  valid_datetime (quarter_past_eight 0)
  ∧ (_cron_matches "*/15 * * * *" (quarter_past_eight 0) = true
       ↔ minute (quarter_past_eight 0) ∈ [0; 15; 30; 45])
  ∧ (_cron_matches "0 8 * * *" (quarter_past_eight 0) = true
       ↔ hour (quarter_past_eight 0) = 8 ∧ minute (quarter_past_eight 0) = 0).
Proof.
  assert (Hvalid : valid_datetime (quarter_past_eight 0))
    by (unfold valid_datetime; simpl; lia).
  split; [exact Hvalid|].
  exact (cron_matches_quarter_hours_and_eight (quarter_past_eight 0) Hvalid).
Defined.

End CronMatch.



Section CronLoop.
Import Cron.
Context {W : Type}.
Variable run_maintenance : W → W.
Variable run_agent : string → string → W → W.
Variable i M : string.

Abbreviation job_step := (job_step run_maintenance run_agent).
Abbreviation tick := (tick run_maintenance run_agent).
Abbreviation turns := (turns run_maintenance run_agent).
Abbreviation once := (once (W:=W) i M).

Lemma once_refl st : once st st.
Proof. exists []. rewrite app_nil_r. unfold fired_count. simpl. eauto with lia. Qed.

Lemma fired_count_app fs1 fs2 :
  fired_count i (fs1 ++ fs2) = (fired_count i fs1 + fired_count i fs2)%nat.
Proof. unfold fired_count. by rewrite filter_app, length_app. Qed.

Lemma once_trans st1 st2 st3 : once st1 st2 → once st2 st3 → once st1 st3.
Proof.
  intros (n1 & E1 & B1 & K1 & F1) (n2 & E2 & B2 & K2 & F2).
  exists (n1 ++ n2). rewrite fired_count_app.
  split; [by rewrite E2, E1, app_assoc|].
  assert (fired_count i n1 = 1%nat → fired_count i n2 = 0%nat)
    by (intros H1; by apply K2, F1).
  split; [lia|]. split.
  - intros H0. destruct (K1 H0) as [C1 L2]. destruct (K2 L2) as [C2 L3].
    split; [lia|done].
  - intros H1. destruct (decide (fired_count i n1 = 1%nat)) as [C1|C1].
    + by apply K2, F1.
    + apply F2. lia.
Qed.

Lemma job_step_once now st job :
  minute_key now = M → once st (job_step now st job).
Proof.
  intros HM. unfold job_step. rewrite HM.
  destruct (negb (job_enabled job)); [apply once_refl|].
  destruct (_ || _); [apply once_refl|].
  case_bool_decide as Hrun; [apply once_refl|].
  destruct (negb (_cron_matches _ _)); [apply once_refl|].
  exists [(job_id job, M)]. simpl. split; [done|].
  unfold fired_count. destruct (decide (job_id job = i)) as [Heq|Hne].
  - rewrite Heq in *. rewrite filter_cons_True by done. simpl.
    rewrite lookup_insert_eq. split; [lia|]. split; [by intros ?|done].
  - rewrite filter_cons_False by done. simpl.
    rewrite lookup_insert_ne by done. split; [lia|]. split; [done|lia].
Qed.

Lemma tick_once cfg now st : minute_key now = M → once st (tick cfg st now).
Proof.
  intros HM. unfold Cron.tick. generalize (cron_jobs cfg). intros jobs.
  revert st. induction jobs as [|job jobs IH]; intros st; simpl.
  - apply once_refl.
  - eapply once_trans; [by apply job_step_once|apply IH].
Qed.

Lemma turns_once cfg clock : ∀ st,
  Forall (λ now, minute_key now = M) clock → once st (turns cfg clock st).
Proof.
  unfold Cron.turns.
  induction clock as [|now clock IH]; intros st Hall; simpl.
  - apply once_refl.
  - apply Forall_cons in Hall as [HM Hall].
    eapply once_trans; [by apply tick_once|by apply IH].
Qed.

(** C7.  Over any number of turns of the loop entered within one minute
    [M], a job id [i] fires at most once; it does not fire at all if
    [last_run] already holds [M] for it, and once it has fired [last_run]
    holds [M] for it. *)
Theorem cron_fires_once_per_minute_key cfg clock (st : state W) :
  Forall (λ now, minute_key now = M) clock →
  ∃ new, firings (turns cfg clock st) = firings st ++ new
    ∧ (fired_count i new ≤ 1)%nat
    ∧ (last_run st !! i = Some M →
       fired_count i new = 0%nat ∧ last_run (turns cfg clock st) !! i = Some M)
    ∧ (fired_count i new = 1%nat →
       last_run (turns cfg clock st) !! i = Some M).
Proof. intros Hall. exact (turns_once cfg clock st Hall). Qed.

End CronLoop.

Section CronLoopWitness.
Import Cron.

(** C7, witness: the default jobs, three turns within 08:00 on 5 March
    2026, and the morning job. *)
Lemma cron_fires_once_witness :
  let clock := [eight_o_clock 1; eight_o_clock 2; eight_o_clock 3] in
  let st := State ∅ [] tt in
  let after := turns id (λ _ _ w, w) DEFAULT_CONFIG clock st in
  Forall (λ now, minute_key now = "2026-03-05 08:00") clock
  ∧ ∃ new, firings after = firings st ++ new
      ∧ (fired_count "morning-status" new ≤ 1)%nat
      ∧ (last_run st !! "morning-status" = Some "2026-03-05 08:00" →
         fired_count "morning-status" new = 0%nat
         ∧ last_run after !! "morning-status" = Some "2026-03-05 08:00")
      ∧ (fired_count "morning-status" new = 1%nat →
         last_run after !! "morning-status" = Some "2026-03-05 08:00").
Proof.
  intros clock st after.
  assert (Hclock : Forall (λ now, minute_key now = "2026-03-05 08:00") clock)
    by (repeat constructor; vm_compute; reflexivity).
  split; [exact Hclock|].
  exact (cron_fires_once_per_minute_key id (λ _ _ w, w) "morning-status"
           "2026-03-05 08:00" DEFAULT_CONFIG clock st Hclock).
Defined.

(** In those three turns the morning job and the half-hourly job fire in
    the first turn and in no other. *)
Example morning_job_fires_once :
  firings (turns id (λ _ _ w, w) DEFAULT_CONFIG
                 [eight_o_clock 1; eight_o_clock 2; eight_o_clock 3]
                 (State ∅ [] tt))
  = [ ("morning-status", "2026-03-05 08:00");
      ("stale-check", "2026-03-05 08:00") ].
Proof. vm_compute. reflexivity. Qed.

End CronLoopWitness.



(* ===================================================================== *)
(** * The agent loop: what its steps leave alone *)
(* ===================================================================== *)

Section AgentFrames.
Import Agent.
Context `{Host E}.

Section Stable.
Context (R : relation (world E)) `{!PreOrder R}.

Lemma stable_ret {A} (a : A) : stable R (ret a).
Proof. intros w. simpl. reflexivity. Qed.

Lemma stable_raise {A} e : stable R (raise (A:=A) e).
Proof. intros w. simpl. reflexivity. Qed.

Lemma stable_lift {A} (r : result A) : stable R (lift r).
Proof. intros w. simpl. reflexivity. Qed.

Lemma stable_mbind {A B} (m : M E A) (k : A → M E B) :
  stable R m → (∀ a, stable R (k a)) → stable R (mbind m k).
Proof.
  intros Hm Hk w. unfold mbind. specialize (Hm w).
  destruct (m w) as [[a|e] w1]; simpl in *; [|done].
  etrans; [exact Hm|apply Hk].
Qed.

Lemma stable_attempt {A} (m : M E A) : stable R m → stable R (attempt m).
Proof.
  intros Hm w. unfold attempt. specialize (Hm w).
  by destruct (m w) as [r w1].
Qed.

Lemma stable_foldM {A B} (f : A → B → M E A) l :
  (∀ a b, stable R (f a b)) → ∀ a, stable R (foldM f a l).
Proof.
  intros Hf. induction l as [|b l IH]; intros a; simpl.
  - apply stable_ret.
  - apply stable_mbind; [apply Hf|apply IH].
Qed.
End Stable.

#[export] Instance keeps_preorder {X} (proj : world E → X) :
  PreOrder (λ w w', proj w' = proj w).
Proof. split; [by intros w|]. intros w1 w2 w3 H1 H2. by rewrite H2. Qed.

End AgentFrames.

(** Decompose a computation along its combinators, down to the steps that
    touch the world directly, and run those. *)
Ltac unfold_steps :=
  unfold Agent.now, Agent.send_message, Agent._ds_request,
    Agent.append_memory, Agent.run_tool_impl, Agent.mcp_call,
    Agent.log_exec, Agent._filter_tools, Agent.load_context_m.

Ltac stable_step :=
  lazymatch goal with
  | |- stable _ (Agent.mbind _ _) =>
      apply stable_mbind; [tc_solve| |intros ?]
  | |- stable _ (Agent.attempt _) => apply stable_attempt
  | |- stable _ (Agent.ret _) => apply stable_ret; tc_solve
  | |- stable _ (Agent.raise _) => apply stable_raise; tc_solve
  | |- stable _ (Agent.lift _) => apply stable_lift; tc_solve
  | |- stable _ (Agent.foldM _ _ _) =>
      apply stable_foldM; [tc_solve|intros ? ?]
  | |- stable _ (match ?x with _ => _ end) => destruct x
  | |- stable _ _ =>
      intros ?; unfold_steps; cbn beta;
      repeat lazymatch goal with
             | |- context [snd (match ?x with _ => _ end)] => destruct x
             end;
      cbn [snd]
  end.

Ltac unfold_agent :=
  unfold Agent._compact_session, Agent.memory_flush, Agent.flush_call,
    Agent.write_call, Agent.write_memory_entry, Agent.tool_write_memory,
    Agent.error_text, Agent.traced, Agent.session_clear,
    Agent.session_append, Agent.strftime.

Ltac solve_keeps :=
  unfold keeps; unfold_agent; repeat stable_step; done.

Section AgentFacts.
Import Session Agent.
Context `{Host E}.
#[local] Abbreviation keeps := (keeps (E:=E)).
#[local] Abbreviation exec_within := (exec_within (E:=E)).
#[local] Abbreviation quiet := (quiet (E:=E)).
#[local] Abbreviation failure_final := (failure_final (E:=E)).
#[local] Abbreviation ends_on_failure := (ends_on_failure (E:=E)).

Lemma session_append_keeps_ds_log entry : keeps ds_log (session_append entry).
Proof. solve_keeps. Qed.
Lemma session_append_keeps_exec_log entry :
  keeps exec_log (session_append entry).
Proof. solve_keeps. Qed.
Lemma send_message_keeps_ds_log text markup :
  keeps ds_log (send_message text markup).
Proof. solve_keeps. Qed.
Lemma tool_write_memory_keeps_file content target :
  keeps file (tool_write_memory content target).
Proof. solve_keeps. Qed.
Lemma write_call_keeps_file tc : keeps file (write_call tc).
Proof. solve_keeps. Qed.
Lemma compact_keeps_exec_log : keeps exec_log _compact_session.
Proof. solve_keeps. Qed.

(** C3.  When an allow-list is given and the requested tool is not on it,
    the body of the loop over the tool calls only appends the tool record
    of that call, whose content begins with ["ERROR"]: the memory files,
    the state of the host and the trace of executors are as before, so
    neither a local tool function nor a provider call has run. *)
Theorem disallowed_tool_fails_closed
    (allowed : gset string) spawned tc (w : world E) :
  tc_name tc ∉ allowed →
  ∃ content,
    startswith "ERROR" content = true
    ∧ run_tool_call (Some allowed) spawned tc w
      = (Ok spawned,
         World (Session.append (utc_isoformat (clock w))
                  {[ "role" := JStr "tool";
                     "tool_call_id" := JStr (tc_id tc);
                     "content" := JStr content ]} (file w))
               (S (clock w)) (mem w) (env w) (sent w) (ds_log w)
               (exec_log w)).
Proof.
  intros Hout. exists (str_take 3000 (NOT_ALLOWED (tc_name tc))).
  split; [reflexivity|].
  unfold run_tool_call. rewrite bool_decide_eq_true_2 by done.
  assert (Hspawn : String.eqb (tc_name tc) "spawn_agent"
                   && contains "[SPAWNED" (NOT_ALLOWED (tc_name tc)) = false).
  { destruct (String.eqb_spec (tc_name tc) "spawn_agent") as [->|]; [|done].
    vm_compute. reflexivity. }
  unfold mbind at 1. unfold ret at 1. rewrite Hspawn. reflexivity.
Qed.

#[export] Instance exec_within_preorder A :
  PreOrder (exec_within A).
Proof.
  split.
  - intros w. exists []. by rewrite app_nil_r.
  - intros w1 w2 w3 (n1 & E1 & F1) (n2 & E2 & F2). exists (n1 ++ n2).
    split; [by rewrite E2, E1, app_assoc|by apply Forall_app].
Qed.

Lemma exec_within_same A (w w' : world E) :
  exec_log w' = exec_log w → exec_within A w w'.
Proof. intros Heq. exists []. by rewrite app_nil_r. Qed.

Lemma exec_within_one A (w w' : world E) k name :
  name ∈ A → exec_log w' = exec_log w ++ [(k, name)] → exec_within A w w'.
Proof. intros Hin Heq. exists [(k, name)]. split; [done|]. by constructor. Qed.

Lemma run_tool_call_within A spawned tc :
  stable (exec_within A) (run_tool_call (Some A) spawned tc).
Proof.
  unfold run_tool_call, TOOL_DISPATCH.
  destruct (decide (tc_name tc ∈ A)) as [Hin|Hout].
  - rewrite bool_decide_eq_false_2 by (by intros ?).
    destruct (bool_decide (tc_name tc ∈ TOOL_NAMES));
      [destruct (String.eqb (tc_name tc) "write_memory")|];
      unfold_agent; repeat stable_step;
      first [by apply exec_within_same
            |by eapply exec_within_one].
  - rewrite bool_decide_eq_true_2 by done.
    unfold_agent; repeat stable_step; by apply exec_within_same.
Qed.

Lemma agent_loop_within A tools n : ∀ spawned,
  stable (exec_within A) (agent_loop n (Some A) tools spawned).
Proof.
  induction n as [|n IH]; intros spawned; cbn [agent_loop]; unfold_agent;
    repeat first [apply IH | apply run_tool_call_within | stable_step];
    by apply exec_within_same.
Qed.

(** Through a whole [agent_respond] with a tool allow-list, every
    executor that runs is for an allowed name. *)
Lemma agent_respond_runs_only_allowed A user_message :
  stable (exec_within A) (agent_respond user_message (Some A)).
Proof.
  unfold agent_respond; unfold_agent;
    repeat first [apply agent_loop_within | stable_step];
    by apply exec_within_same.
Qed.


(** ** A failing request of the loop ends the invocation *)

#[export] Instance quiet_preorder : PreOrder quiet.
Proof.
  split.
  - intros w. exists []. by rewrite app_nil_r.
  - intros w1 w2 w3 (n1 & E1 & F1) (n2 & E2 & F2). exists (n1 ++ n2).
    split; [by rewrite E2, E1, app_assoc|by apply Forall_app].
Qed.

Lemma quiet_same (w w' : world E) : ds_log w' = ds_log w → quiet w w'.
Proof. intros Heq. exists []. by rewrite app_nil_r. Qed.

Lemma quiet_one (w w' : world E) entry :
  ¬ loop_failure entry → ds_log w' = ds_log w ++ [entry] → quiet w w'.
Proof. intros Hin Heq. exists [entry]. split; [done|]. by constructor. Qed.

Lemma split_after_quiet (c pre post l : list (origin * result ds_message))
    x :
  Forall (λ e, ¬ loop_failure e) c → loop_failure x →
  c ++ l = pre ++ x :: post →
  ∃ pre', l = pre' ++ x :: post.
Proof.
  intros Hc Hx. revert pre. induction c as [|y c IH]; intros pre Heq.
  - by exists pre.
  - apply Forall_cons in Hc as [Hy Hc]. destruct pre as [|z pre].
    + simpl in Heq. injection Heq as -> _. done.
    + simpl in Heq. injection Heq as _ Heq. by apply (IH Hc pre).
Qed.

Lemma failure_final_after w w1 r w' :
  quiet w w1 → failure_final w1 r w' → failure_final w r w'.
Proof.
  intros (c & Ec & Hc) (new & En & Hff). exists (c ++ new).
  split; [by rewrite En, Ec, app_assoc|].
  intros pre exc post Heq.
  destruct (split_after_quiet c pre post new (FromLoop, Raise exc) Hc)
    as [pre' Hpre']; [by eexists|done|].
  by apply (Hff pre').
Qed.

Lemma failure_final_quiet w r w' : quiet w w' → failure_final w r w'.
Proof.
  intros (c & Ec & Hc). exists c. split; [done|].
  intros pre exc post ->. apply Forall_app in Hc as [_ Hc].
  apply Forall_cons in Hc as [Hx _]. destruct Hx. by eexists.
Qed.

Lemma ends_quiet (m : M E string) : stable quiet m → ends_on_failure m.
Proof. intros Hm w. apply failure_final_quiet, Hm. Qed.

Lemma ends_mbind {A} (m : M E A) (k : A → M E string) :
  stable quiet m → (∀ a, ends_on_failure (k a)) →
  ends_on_failure (mbind m k).
Proof.
  intros Hm Hk w. unfold mbind. specialize (Hm w).
  destruct (m w) as [[a|e] w1]; simpl in *.
  - eapply failure_final_after; [exact Hm|apply Hk].
  - by apply failure_final_quiet.
Qed.

(** The request of the loop: either it gives a message and the run goes
    on, or the three steps of the handler end the run. *)
Lemma ends_request messages tools (k : ds_message → M E string) :
  (∀ msg, ends_on_failure (k msg)) →
  ends_on_failure
    (mbind (attempt (_ds_request FromLoop messages tools))
           (λ response,
              match response with
              | Raise exc =>
                  mbind (session_append (assistant (API_ERROR exc)))
                    (λ _, mbind (send_message (API_ERROR exc) None)
                            (λ _, ret (API_ERROR exc)))
              | Ok msg => k msg
              end)).
Proof.
  intros Hk w.
  set (w1 r := World (file w) (clock w) (mem w) (env w) (sent w)
                     (ds_log w ++ [(FromLoop, r)]) (exec_log w)).
  set (out := mbind _ _ w).
  destruct (ds_service (length (ds_log w)) messages tools) as [msg|exc]
    eqn:Hreply.
  - assert (Hout : out = k msg (w1 (Ok msg))).
    { unfold out, mbind at 1, attempt, _ds_request. by rewrite Hreply. }
    rewrite Hout. eapply failure_final_after; [|apply Hk].
    eapply quiet_one; [|done]. by intros [exc [=]].
  - assert (Hout : out =
      (Ok (API_ERROR exc),
       World (Session.append (utc_isoformat (clock w))
                (assistant (API_ERROR exc)) (file w))
             (S (clock w)) (mem w) (env w)
             (sent w ++ [(API_ERROR exc, None)])
             (ds_log w ++ [(FromLoop, Raise exc)]) (exec_log w))).
    { unfold out, mbind at 1, attempt, _ds_request. by rewrite Hreply. }
    rewrite Hout. exists [(FromLoop, Raise exc)]. split; [done|].
    intros pre exc' post Heq.
    destruct pre as [|x pre]; simpl in Heq.
    + injection Heq as <- <-. split; [done|]. split; [done|].
      split; [eexists; apply last_snoc|apply last_snoc].
    + injection Heq as _ Heq. by destruct pre.
Qed.

Lemma run_tool_call_keeps_ds_log allowed spawned tc :
  keeps ds_log (run_tool_call allowed spawned tc).
Proof.
  unfold run_tool_call, TOOL_DISPATCH.
  destruct (match allowed with
            | Some a => bool_decide (tc_name tc ∉ a)
            | None => false
            end);
    [|destruct (bool_decide (tc_name tc ∈ TOOL_NAMES));
      [destruct (String.eqb (tc_name tc) "write_memory")|]];
    solve_keeps.
Qed.

Lemma keeps_quiet {A} (m : M E A) : keeps ds_log m → stable quiet m.
Proof. intros Hm w. apply quiet_same, Hm. Qed.

Lemma compact_quiet : stable quiet _compact_session.
Proof.
  unfold_agent; repeat stable_step;
    first [by apply quiet_same
          |eapply quiet_one; [|done]; by intros [exc [=]]].
Qed.

Ltac quiet_steps :=
  unfold_agent;
  repeat first [apply keeps_quiet, run_tool_call_keeps_ds_log
               |apply compact_quiet
               |stable_step];
  by apply quiet_same.

Lemma agent_loop_ends allowed tools n : ∀ spawned,
  ends_on_failure (agent_loop n allowed tools spawned).
Proof.
  induction n as [|n IH]; intros spawned; cbn [agent_loop].
  - apply ends_quiet. quiet_steps.
  - apply ends_mbind; [quiet_steps|intros context].
    apply ends_mbind; [quiet_steps|intros prompt].
    apply (ends_request _ _
             (λ msg, match msg_tool_calls msg with
                     | [] => _ | _ :: _ => _ end)).
    intros msg. destruct (msg_tool_calls msg) as [|tc tcs].
    + apply ends_quiet. quiet_steps.
    + apply ends_mbind; [quiet_steps|intros _].
      apply ends_mbind; [quiet_steps|intros _].
      apply ends_mbind; [quiet_steps|intros spawned'].
      apply IH.
Qed.

(** C6.  If, during a run of [agent_respond], a request made by the loop
    to the reasoning service raised [exc], then no request follows it in
    that run, the run returned the notice ["(DeepSeek API error: exc)"],
    and that notice is the last line of the transcript and the last
    message sent. *)
Theorem reasoning_failure_ends_invocation
    user_message allowed (w : world E) r w' pre exc post :
  agent_respond user_message allowed w = (r, w') →
  ds_log w' = ds_log w ++ pre ++ (FromLoop, Raise exc) :: post →
  post = [] ∧ r = Ok (API_ERROR exc)
  ∧ (∃ ts, last (file w')
           = Some (Parsed (<["_ts" := JStr ts]>
                             (assistant (API_ERROR exc)))))
  ∧ last (sent w') = Some (API_ERROR exc, None).
Proof.
  intros Hrun Hlog.
  assert (Hends : ends_on_failure (agent_respond user_message allowed)).
  { unfold agent_respond.
    apply ends_mbind; [quiet_steps|intros _].
    apply ends_mbind; [quiet_steps|intros count].
    apply ends_mbind; [quiet_steps|intros _].
    apply ends_mbind; [quiet_steps|intros tools].
    apply agent_loop_ends. }
  destruct (Hends w) as (new & En & Hff). rewrite Hrun in En, Hff.
  simpl in En, Hff. rewrite En in Hlog. apply app_inv_head in Hlog.
  by apply (Hff pre).
Qed.

End AgentFacts.



(* ===================================================================== *)
(** * Compaction *)
(* ===================================================================== *)

Section Compaction.
Import Session Agent.
Context `{Host E}.

#[local] Arguments startswith : simpl never.

Lemma flush_counts tcs : ∀ c f w,
  foldM flush_call (c, f) tcs w
  = (Ok ((c + length (write_results tcs w).1)%nat,
         (f + failures (write_results tcs w).1)%nat),
     (write_results tcs w).2).
Proof.
  induction tcs as [|tc tcs IH]; intros c f w; simpl.
  - unfold ret, failures. simpl. by rewrite !Nat.add_0_r.
  - unfold mbind at 1. unfold flush_call at 1.
    destruct (String.eqb (tc_name tc) "write_memory").
    + unfold mbind at 1, attempt.
      destruct (write_call tc w) as [r w1].
      destruct (write_results tcs w1) as [rs w2] eqn:Hrs.
      assert (Hstep : ∀ c' f', foldM flush_call (c', f') tcs w1
                = (Ok ((c' + length rs)%nat, (f' + failures rs)%nat), w2))
        by (intros c' f'; by rewrite IH, Hrs).
      unfold failures. simpl.
      destruct r as [res|exc]; simpl.
      * destruct (startswith "ERROR" res) eqn:Hs; simpl; unfold ret;
          rewrite Hstep; unfold failures;
          [rewrite filter_cons_True by (by simpl; rewrite Hs)
          |rewrite filter_cons_False by (by simpl; rewrite Hs)];
          simpl; do 3 f_equal; lia.
      * unfold ret. rewrite Hstep. unfold failures.
        do 3 f_equal; lia.
    + unfold ret. apply IH.
Qed.

Lemma no_failures rs :
  (failures rs =? 0)%nat = forallb succeeded rs.
Proof.
  unfold failures. induction rs as [|r rs IH]; simpl; [done|].
  destruct (succeeded r) eqn:Hr; simpl.
  - by rewrite filter_cons_False by (by rewrite Hr).
  - by rewrite filter_cons_True by done.
Qed.

Lemma write_results_keeps_file tcs : ∀ w,
  file (write_results tcs w).2 = file w.
Proof.
  induction tcs as [|tc tcs IH]; intros w; simpl; [done|].
  destruct (String.eqb (tc_name tc) "write_memory"); [|apply IH].
  pose proof (write_call_keeps_file tc w) as Hw.
  destruct (write_call tc w) as [r w1].
  specialize (IH w1). destruct (write_results tcs w1) as [rs w2].
  simpl in *. by rewrite IH.
Qed.

Lemma memory_flush_spec messages (w : world E) :
  let reply := ds_service (length (ds_log w)) (summary_of messages)
                          ["write_memory"] in
  let w1 := (_ds_request FromCompaction (summary_of messages)
                         ["write_memory"] w).2 in
  match (memory_flush messages w).1 with
  | Ok b => b
  | Raise _ => false
  end = flush_ok reply w1
  ∧ file (memory_flush messages w).2 = file w.
Proof.
  intros reply w1.
  assert (Hw1 : w1 = World (file w) (clock w) (mem w) (env w) (sent w)
                       (ds_log w ++ [(FromCompaction, reply)]) (exec_log w))
    by reflexivity.
  clearbody w1.
  assert (Hout : memory_flush messages w =
    match reply with
    | Ok msg =>
        match msg_tool_calls msg with
        | [] =>
            match msg_content msg with
            | Some content =>
                if negb (String.eqb content "") then
                  mbind (tool_write_memory (JStr content) (JStr "daily"))
                        (λ res, ret (negb (startswith "ERROR" res))) w1
                else (Ok false, w1)
            | None => (Ok false, w1)
            end
        | _ :: _ =>
            mbind (foldM flush_call (0, 0)%nat (msg_tool_calls msg))
                  (λ counts,
                     ret ((0 <? counts.1)%nat && (counts.2 =? 0)%nat)) w1
        end
    | Raise e => (Raise e, w1)
    end).
  { unfold memory_flush, mbind at 1, _ds_request.
    change (filter _ TOOL_NAMES) with ["write_memory"].
    fold (summary_of messages). fold reply. rewrite <- Hw1.
    clearbody reply.
    destruct reply as [msg|e]; [|done].
    destruct (msg_tool_calls msg); [|done].
    destruct (msg_content msg) as [c|]; [|done].
    by destruct (negb (String.eqb c "")). }
  rewrite Hout. clear Hout.
  assert (Hfile1 : file w1 = file w) by (by rewrite Hw1).
  clearbody reply. clear Hw1.
  destruct reply as [msg|exc]; [|done]. cbn [flush_ok].
  destruct (msg_tool_calls msg) as [|tc tcs] eqn:Htcs.
  - destruct (msg_content msg) as [c|]; [|done].
    destruct (String.eqb c ""); [done|]. cbn [negb andb].
    unfold mbind.
    pose proof (tool_write_memory_keeps_file (JStr c) (JStr "daily") w1)
      as Hfile.
    destruct (tool_write_memory (JStr c) (JStr "daily") w1) as [[res|e] w2];
      simpl in *; by rewrite Hfile.
  - unfold mbind. rewrite flush_counts. cbn [fst snd ret].
    rewrite write_results_keeps_file. split; [|done].
    rewrite !Nat.add_0_l, no_failures. f_equal.
    by destruct (length _).
Qed.

(** C2, amended.  When the context is not empty, [_compact_session]
    returns normally, and it appends a compaction marker exactly when the
    memory flush counts as done: the reasoning service replied and either
    its reply carried tool calls, among them at least one [write_memory]
    call, and every [write_memory] call succeeded, or it carried none and
    its non-empty text was written to the daily log without error.
    Otherwise the transcript is left as it was. *)
Theorem compaction_marker_rule (w : world E) messages :
  Session.load_context CFG (file w) = Ok messages → messages ≠ [] →
  let reply := ds_service (length (ds_log w)) (summary_of messages)
                          ["write_memory"] in
  let w1 := (_ds_request FromCompaction (summary_of messages)
                         ["write_memory"] w).2 in
  (_compact_session w).1 = Ok tt
  ∧ if flush_ok reply w1
    then ∃ ts, file (_compact_session w).2
               = file w ++ [Parsed (<["_ts" := JStr ts]>
                                      {[ "_compact_marker" := JBool true ]})]
    else file (_compact_session w).2 = file w.
Proof.
  intros Hload Hne reply w1.
  destruct (memory_flush_spec messages w) as [Hok Hfile].
  fold reply w1 in Hok. rewrite <- Hok. clear Hok.
  assert (Hrun : _compact_session w =
    let '(r, w2) := memory_flush messages w in
    if match r with Ok b => b | Raise _ => false end
    then session_clear w2 else (Ok tt, w2)).
  { unfold _compact_session, mbind, load_context_m, attempt.
    rewrite Hload. destruct messages as [|m ms]; [done|].
    by destruct (memory_flush (m :: ms) w) as [[[|]|exc] w2]. }
  rewrite Hrun. clear Hrun.
  destruct (memory_flush messages w) as [r w2]. simpl in Hfile |- *.
  destruct (match r with Ok b => b | Raise _ => false end).
  - split; [done|]. eexists. unfold session_clear, session_append, mbind.
    simpl. unfold Session.append. by rewrite Hfile.
  - done.
Qed.

End Compaction.

(* ===================================================================== *)
(** * Runs on the fixture host *)
(* ===================================================================== *)

Section Runs.
Import Session Agent.

(** C3, witness: a webhook run is asked for [merge_pr], which is not among
    the tools allowed to webhooks. *)
Lemma disallowed_tool_witness :
  let tc := ToolCall "call_9" "merge_pr" "{}" in
  let w := demo_world (stored [user_msg "CI failed for PR #7"]) in
  (tc_name tc ∉ WEBHOOK_ALLOWED_TOOL_NAMES)
  ∧ ∃ content,
      startswith "ERROR" content = true
      ∧ run_tool_call (H:=demo_host []) (Some WEBHOOK_ALLOWED_TOOL_NAMES)
                      None tc w
        = (Ok None,
           World (append (utc_isoformat (Host:=demo_host []) (clock w))
                    {[ "role" := JStr "tool";
                       "tool_call_id" := JStr (tc_id tc);
                       "content" := JStr content ]} (file w))
                 (S (clock w)) (mem w) (env w) (sent w) (ds_log w)
                 (exec_log w)).
Proof.
  intros tc w.
  assert (Hout : tc_name tc ∉ WEBHOOK_ALLOWED_TOOL_NAMES)
    by (apply (bool_decide_eq_false_1 _); vm_compute; reflexivity).
  split; [exact Hout|].
  exact (disallowed_tool_fails_closed (H:=demo_host [])
           WEBHOOK_ALLOWED_TOOL_NAMES None tc w Hout).
Defined.

(** C6, witness: the reasoning service times out on the first request of
    the loop. *)
Lemma reasoning_failure_witness :
  let w := demo_world [] in
  let out := agent_respond (H:=demo_host []) "status?" None w in
  let post : list (origin * result ds_message) := [] in
  agent_respond (H:=demo_host []) "status?" None w = (out.1, out.2)
  ∧ ds_log out.2 = ds_log w ++ [] ++ (FromLoop, Raise TIMED_OUT) :: post
  ∧ (post = [] ∧ out.1 = Ok (API_ERROR TIMED_OUT)
     ∧ (∃ ts, last (file out.2)
              = Some (Parsed (<["_ts" := JStr ts]>
                                (assistant (API_ERROR TIMED_OUT)))))
     ∧ last (sent out.2) = Some (API_ERROR TIMED_OUT, None)).
Proof.
  intros w out post.
  assert (Hrun : agent_respond (H:=demo_host []) "status?" None w
                 = (out.1, out.2)) by apply surjective_pairing.
  assert (Hlog : ds_log out.2
                 = ds_log w ++ [] ++ (FromLoop, Raise TIMED_OUT) :: post)
    by (vm_compute; reflexivity).
  split; [exact Hrun|]. split; [exact Hlog|].
  exact (reasoning_failure_ends_invocation (H:=demo_host [])
           "status?" None w out.1 out.2 [] TIMED_OUT post Hrun Hlog).
Defined.

(** C2, counterexample.  The reply carries two [write_memory] calls; the
    first succeeds, and its entry is in [MEMORY.md] afterwards, the second
    fails.  No marker is appended: the transcript is as it was. *)
Lemma partial_flush_leaves_no_marker :
  let w := demo_world (stored [user_msg "remember: squash merges only"]) in
  let after := (_compact_session (H:=demo_host [Ok TWO_WRITES]) w).2 in
  mem after !! "MEMORY.md"
    = Some [NL +:+ "## 2026-01-01 00:00 UTC" +:+ NL
            +:+ "squash merges only" +:+ NL]
  ∧ file after = file w.
Proof. vm_compute. split; reflexivity. Qed.

(** C2, witness: the reply carries one [write_memory] call, which
    succeeds, and the marker is appended. *)
Lemma compaction_marker_witness :
  let host := demo_host [Ok ONE_WRITE] in
  let w := demo_world (stored [user_msg "remember: squash merges only"]) in
  let messages := [user_msg "remember: squash merges only"] in
  load_context (CFG (Host:=host)) (file w) = Ok messages
  ∧ messages ≠ []
  ∧ (_compact_session (H:=host) w).1 = Ok tt
  ∧ ∃ ts, file (_compact_session (H:=host) w).2
          = file w ++ [Parsed (<["_ts" := JStr ts]>
                                 {[ "_compact_marker" := JBool true ]})].
Proof.
  intros host w messages.
  assert (Hload : load_context (CFG (Host:=host)) (file w) = Ok messages)
    by (vm_compute; reflexivity).
  assert (Hne : messages ≠ []) by discriminate.
  split; [exact Hload|]. split; [exact Hne|].
  exact (compaction_marker_rule (H:=host) w messages Hload Hne).
Defined.

End Runs.

